(** * optuna/visualization.py: the plot builders, embedded and verified

    The three builders [_get_intermediate_plot],
    [_get_optimization_history_plot] and [_get_slice_plot] read the trials of
    a study, filter them by state and assemble plotly objects.  They are
    embedded here as functions into a small monad that carries the logger's
    warnings and the raised exception, over records for the plotly objects
    they build. *)

From Stdlib Require Import ZArith Lia List Sorting.Sorted Floats.SpecFloat.
From stdpp Require Import base option list sorting strings pretty gmap.

Open Scope string_scope.
Open Scope list_scope.
Open Scope Z_scope.

(** ** Python floats

    A Python [float] is an IEEE-754 binary64 number: [spec_float] with
    precision 53 and maximal exponent 1024. *)

Module PyFloat.

Definition float : Type := spec_float.

Definition inf : float := S754_infinity false.
Definition neg_inf : float := S754_infinity true.
Definition nan : float := S754_nan.

(** [float(z)] for an integer literal. *)
Definition of_Z (z : Z) : float := binary_normalize 53 1024 z 0 false.

(** [a < b] and [a <= b] on floats. *)
Definition lt (a b : float) : bool := SFltb a b.
Definition le (a b : float) : bool := SFleb a b.

Definition is_nan (a : float) : bool :=
  match a with S754_nan => true | _ => false end.

(** The builtin [min(a, b)] keeps its first argument unless the second
    compares strictly below it; [max(a, b)] unless strictly above. *)
Definition min (a b : float) : float := if lt b a then b else a.
Definition max (a b : float) : float := if lt a b then b else a.

End PyFloat.

Abbreviation float := PyFloat.float.

(** ** The collaborators: optuna.structs *)

(** Modelled from the spec: [TrialState] is declared in optuna.structs; the
    spec gives the states COMPLETE, PRUNED, RUNNING and one other. *)
Inductive TrialState := RUNNING | COMPLETE | PRUNED | FAIL.

(** Modelled from the spec: [StudyDirection] is declared in optuna.structs;
    the spec gives the directions MINIMIZE and MAXIMIZE. *)
Inductive StudyDirection := MINIMIZE | MAXIMIZE.

#[global] Instance TrialState_eq_dec : EqDecision TrialState.
Proof. solve_decision. Defined.

#[global] Instance StudyDirection_eq_dec : EqDecision StudyDirection.
Proof. solve_decision. Defined.

(** A Python value as it ends up in a coordinate list of a trace. *)
Inductive pyval :=
| VNone
| VInt (z : Z)
| VFloat (f : float)
| VStr (s : string).

(** Modelled from the spec: a trial record ([FrozenTrial] of optuna.structs):
    [number], [state], [value] (an optional float, [None] when there is no
    objective value), [params] (a dict from parameter name to value) and
    [intermediate_values] (a dict from step to value, kept in insertion
    order); the attribute itself may be missing, which [hasattr] probes. *)
Record Trial := mkTrial {
  number : Z;
  state : TrialState;
  value : option float;
  params : gmap string pyval;
  intermediate_values : option (list (Z * float))
}.

Record Study := mkStudy {
  direction : StudyDirection;
  trials : list Trial
}.

(** ** Warnings and exceptions *)

Inductive exception :=
| ValueError (msg : string)
| AttributeError (msg : string)
| IndexError (msg : string).

(** A computation logs warnings and then either raises or returns. *)
Definition M (A : Type) : Type := list string * (exception + A).

Definition ret {A} (a : A) : M A := ([], inr a).
Definition raise {A} (e : exception) : M A := ([], inl e).
Definition warning (msg : string) : M unit := ([msg], inr tt).
Definition lift {A} (r : exception + A) : M A := ([], r).

Definition bind {A B} (m : M A) (k : A -> M B) : M B :=
  match m with
  | (w, inl e) => (w, inl e)
  | (w, inr a) => let '(w', r) := k a in (w ++ w', r)
  end.

Notation "'do' x <- m ; k" := (bind m (fun x => k))
  (at level 10, x name, m at level 100, k at level 200).
Notation "'do_' m ; k" := (bind m (fun _ => k))
  (at level 10, m at level 100, k at level 200).

Definition warnings {A} (m : M A) : list string := fst m.
Definition outcome {A} (m : M A) : exception + A := snd m.

(** ** The plotly objects the builders construct *)

Module go.

(** [marker={...}] of a scatter trace. *)
Record Marker := mkMarker {
  maxdisplayed : option Z;
  color : option (list Z);
  colorscale : option string;
  colorbar_title : option string;
  showscale : option bool
}.

Definition no_marker : Marker := mkMarker None None None None None.

Record Scatter := mkScatter {
  x : list pyval;
  y : list pyval;
  mode : option string;
  marker : Marker;
  name : option string;
  showlegend : option bool
}.

(** A subplot cell, [(row, col)], counted from 1. *)
Definition cell : Type := Z * Z.

(** The layout: its title, the axis titles per subplot cell (a figure
    without a grid has the single cell [(1, 1)]) and [showlegend]. *)
Record Layout := mkLayout {
  title : option string;
  xaxis_title : gmap cell string;
  yaxis_title : gmap cell string;
  layout_showlegend : option bool
}.

(** [make_subplots(rows, cols, shared_yaxes)] records its grid. *)
Record Grid := mkGrid {
  rows : Z;
  cols : Z;
  shared_yaxes : bool
}.

(** A figure: its traces, each with the cell it was added to (if any), its
    layout and its subplot grid (if any). *)
Record Figure := mkFigure {
  data : list (Scatter * option cell);
  layout : Layout;
  grid : option Grid
}.

(** [go.Figure(data=traces, layout=layout)]. *)
Definition new_Figure (traces : list Scatter) (l : Layout) : Figure :=
  mkFigure (map (fun t => (t, None)) traces) l None.

(** The cells whose axes a figure has. *)
Definition cells (fig : Figure) : list cell :=
  match grid fig with
  | None => [(1, 1)]
  | Some g => r ← seqZ 1 (rows g); c ← seqZ 1 (cols g); [(r, c)]
  end.

(** [figure.update_layout(l)]: the properties [l] sets override. *)
Definition update_layout (fig : Figure) (l : Layout) : Figure :=
  let l0 := layout fig in
  mkFigure (data fig)
    (mkLayout (from_option Some (title l0) (title l))
              (xaxis_title l ∪ xaxis_title l0)
              (yaxis_title l ∪ yaxis_title l0)
              (from_option Some (layout_showlegend l0) (layout_showlegend l)))
    (grid fig).

(** [figure.add_trace(trace, row=r, col=c)]. *)
Definition add_trace (fig : Figure) (t : Scatter) (r c : Z) : Figure :=
  mkFigure (data fig ++ [(t, Some (r, c))]) (layout fig) (grid fig).

Definition set_xaxis_title (fig : Figure) (s : string) (c : cell) : Figure :=
  let l := layout fig in
  mkFigure (data fig)
    (mkLayout (title l) (<[c := s]> (xaxis_title l)) (yaxis_title l)
              (layout_showlegend l))
    (grid fig).

Definition set_yaxis_title (fig : Figure) (s : string) (c : cell) : Figure :=
  let l := layout fig in
  mkFigure (data fig)
    (mkLayout (title l) (xaxis_title l) (<[c := s]> (yaxis_title l))
              (layout_showlegend l))
    (grid fig).

(** [figure.update_xaxes(title_text=s, row=r, col=c)]; without [row] and
    [col] every x-axis of the figure is updated. *)
Definition update_xaxes (fig : Figure) (s : string) (at_ : option cell)
  : Figure :=
  match at_ with
  | Some c => set_xaxis_title fig s c
  | None => foldl (fun f c => set_xaxis_title f s c) fig (cells fig)
  end.

Definition update_yaxes (fig : Figure) (s : string) (at_ : option cell)
  : Figure :=
  match at_ with
  | Some c => set_yaxis_title fig s c
  | None => foldl (fun f c => set_yaxis_title f s c) fig (cells fig)
  end.

(** [trace.update(marker=dict(showscale=b))]. *)
Definition update_showscale (t : Scatter) (b : bool) : Scatter :=
  let m := marker t in
  mkScatter (x t) (y t) (mode t)
    (mkMarker (maxdisplayed m) (color m) (colorscale m) (colorbar_title m)
              (Some b))
    (name t) (showlegend t).

Definition empty_layout : Layout := mkLayout None ∅ ∅ None.

(** The figure [make_subplots] returns for a grid it accepts. *)
Definition subplot_grid (r c : Z) (shared : bool) : Figure :=
  mkFigure [] empty_layout (Some (mkGrid r c shared)).

End go.

(** The subplot constructor of plotly (4.0.0 or later, as
    [_check_plotly_availability] demands) refuses a row or column count that
    is not a positive integer with a [ValueError]. *)
Definition plotly_make_subplots (rows cols : Z) (shared_yaxes : bool)
  : exception + go.Figure :=
  if decide (rows <= 0) then
    inl (ValueError
           "The 'rows' argument to make_suplots must be an int greater than 0.")
  else if decide (cols <= 0) then
    inl (ValueError
           "The 'cols' argument to make_suplots must be an int greater than 0.")
  else inr (go.subplot_grid rows cols shared_yaxes).

(** ** Sorting parameter names

    [sorted] on a list of [str] orders by code point, lexicographically. *)

Definition sorted (l : list string) : list string := merge_sort String.le l.

(** ** Helpers of the builders *)

(** [l[-1]] *)
Definition getitem_last {A} (l : list A) : M A :=
  match last l with
  | Some a => ret a
  | None => raise (IndexError "list index out of range")
  end.

(** [l.pop(0)], as the list that remains. *)
Definition pop_first {A} (l : list A) : M (list A) :=
  match l with
  | _ :: rest => ret rest
  | [] => raise (IndexError "pop from empty list")
  end.

(** [trial.intermediate_values] *)
Definition getattr_intermediate_values (trial : Trial) : M (list (Z * float)) :=
  match intermediate_values trial with
  | Some d => ret d
  | None => raise (AttributeError "intermediate_values")
  end.

(** [hasattr(trial, 'intermediate_values')] *)
Definition hasattr_intermediate_values (trial : Trial) : bool :=
  bool_decide (is_Some (intermediate_values trial)).

(** A trial's [value] as a coordinate. *)
Definition value_coord (t : Trial) : pyval := from_option VFloat VNone (value t).

(** ** _get_intermediate_plot *)

Definition intermediate_layout : go.Layout :=
  go.mkLayout (Some "Intermediate Values Plot")
              {[ (1, 1) := "Step" ]}
              {[ (1, 1) := "Intermediate Value" ]}
              (Some false).

Definition target_state : list TrialState := [PRUNED; COMPLETE; RUNNING].

Definition intermediate_trace (trial : Trial) (d : list (Z * float)) : go.Scatter :=
  go.mkScatter (map (fun kv => VInt kv.1) d)
               (map (fun kv => VFloat kv.2) d)
               (Some "lines+markers")
               (go.mkMarker (Some 10) None None None None)
               (Some ("Trial" +:+ pretty (number trial)))
               None.

(** The loop [for trial in trials: ... traces.append(trace)]. *)
Fixpoint intermediate_loop (trials : list Trial) (traces : list go.Scatter)
  : M (list go.Scatter) :=
  match trials with
  | [] => ret traces
  | trial :: rest =>
      do d <- getattr_intermediate_values trial;
      intermediate_loop rest (traces ++ [intermediate_trace trial d])
  end.

Definition _get_intermediate_plot (study : Study) : M go.Figure :=
  let layout := intermediate_layout in
  let trials := filter (fun trial => state trial ∈ target_state) (trials study) in
  match trials with
  | [] =>
      do_ warning "Study instance does not contain trials.";
      ret (go.new_Figure [] layout)
  | trial0 :: _ =>
      if bool_decide (hasattr_intermediate_values trial0 = false) then
        do_ warning
          "You need to set up the pruning feature to utilize plot_intermediate_values()";
        ret (go.new_Figure [] layout)
      else
        do traces <- intermediate_loop trials [];
        ret (go.new_Figure traces layout)
  end.

(** ** _get_optimization_history_plot *)

Definition history_layout : go.Layout :=
  go.mkLayout (Some "Optimization History Plot")
              {[ (1, 1) := "#Trials" ]}
              {[ (1, 1) := "Objective Value" ]}
              None.

Definition non_float_message (trial : Trial) : string :=
  "Trial" +:+ pretty (number trial)
    +:+ " has COMPLETE state, but its value is non float.".

(** The loop over the COMPLETE trials that appends to [best_values]. *)
Fixpoint history_loop (d : StudyDirection) (trials : list Trial)
    (best_values : list float) : M (list float) :=
  match trials with
  | [] => ret best_values
  | trial :: rest =>
      do trial_value <-
        match value trial with
        | Some v => ret v
        | None => raise (ValueError (non_float_message trial))
        end;
      do prev <- getitem_last best_values;
      if decide (d = MINIMIZE) then
        history_loop d rest (best_values ++ [PyFloat.min prev trial_value])
      else
        history_loop d rest (best_values ++ [PyFloat.max prev trial_value])
  end.

(** Lines 143 to 154: the best-so-far sequence. *)
Definition history_best_values (d : StudyDirection) (trials : list Trial)
  : M (list float) :=
  let best_values :=
    if decide (d = MINIMIZE) then [PyFloat.inf] else [SFopp PyFloat.inf] in
  do best_values <- history_loop d trials best_values;
  pop_first best_values.

Definition _get_optimization_history_plot (study : Study) : M go.Figure :=
  let layout := history_layout in
  let trials := filter (fun t => state t = COMPLETE) (trials study) in
  if decide (length trials = 0%nat) then
    do_ warning "Study instance does not contain trials.";
    ret (go.new_Figure [] layout)
  else
    do best_values <- history_best_values (direction study) trials;
    let traces :=
      [ go.mkScatter (map (fun t => VInt (number t)) trials)
                     (map value_coord trials)
                     (Some "markers") go.no_marker (Some "Objective Value") None;
        go.mkScatter (map (fun t => VInt (number t)) trials)
                     (map VFloat best_values)
                     None go.no_marker (Some "Best Value") None ] in
    ret (go.new_Figure traces layout).

(** ** _get_slice_plot *)

Definition slice_layout : go.Layout :=
  go.mkLayout (Some "Slice Plot") ∅ ∅ None.

(** [param in t.params] *)
Definition has_param (param : string) (t : Trial) : Prop :=
  is_Some (params t !! param).

#[global] Instance has_param_dec param t : Decision (has_param param t).
Proof. unfold has_param; apply _. Defined.

(** The guard [if param in t.params] makes the subscript [t.params[param]]
    total: the comprehension collects the parameter of the trials that have
    it. *)
Definition _generate_slice_subplot (trials : list Trial) (param : string)
  : go.Scatter :=
  go.mkScatter
    (omap (fun t => params t !! param) trials)
    (map value_coord (filter (has_param param) trials))
    (Some "markers")
    (go.mkMarker None
                 (Some (map number (filter (has_param param) trials)))
                 (Some "Blues")
                 (Some "#Trials")
                 None)
    None
    (Some false).

(** [{p_name for t in trials for p_name in t.params.keys()}] *)
Definition all_params_of (trials : list Trial) : gset string :=
  ⋃ (map (fun t => dom (params t)) trials).

Definition unknown_param_message (input_p_name : string) : string :=
  "Parameter " +:+ input_p_name +:+ " does not exist in your study.".

(** Lines 217 to 224: the names to plot, or the first requested name that is
    not in [all_params]. *)
Definition select_params (all_params : gset string) (params : list string)
  : string + list string :=
  if decide (length params = 0%nat) then
    inr (sorted (elements all_params))
  else
    match list_find (fun input_p_name => input_p_name ∉ all_params) params with
    | Some (_, input_p_name) => inl input_p_name
    | None => inr (sorted (elements (list_to_set params : gset string)))
    end.

(** The body of [for i, param in enumerate(sorted_params)], from index [i]
    on. *)
Fixpoint slice_loop (trials : list Trial) (sorted_params : list string)
    (i : Z) (showscale : bool) (figure : go.Figure) : go.Figure :=
  match sorted_params with
  | [] => figure
  | param :: rest =>
      let trace := _generate_slice_subplot trials param in
      let trace := go.update_showscale trace showscale in
      let showscale' := if showscale then false else showscale in
      let figure := go.add_trace figure trace 1 (i + 1) in
      let figure := go.update_xaxes figure param (Some (1, i + 1)) in
      let figure :=
        if decide (i = 0) then
          go.update_yaxes figure "Objective Value" (Some (1, 1))
        else figure in
      slice_loop trials rest (i + 1) showscale' figure
  end.

Section Slice.

(** [plotly.subplots.make_subplots(rows, cols, shared_yaxes)], which is
    not part of this module. *)
Variable make_subplots : Z -> Z -> bool -> exception + go.Figure.

(** Lines 226 to 247. *)
Definition slice_figure (layout : go.Layout) (trials : list Trial)
    (sorted_params : list string) : M go.Figure :=
  match sorted_params with
  | [param0] =>
      let figure :=
        go.new_Figure [_generate_slice_subplot trials param0] layout in
      let figure := go.update_xaxes figure param0 None in
      let figure := go.update_yaxes figure "Objective Value" None in
      ret figure
  | _ =>
      do figure <-
        lift (make_subplots 1 (Z.of_nat (length sorted_params)) true);
      let figure := go.update_layout figure layout in
      ret (slice_loop trials sorted_params 0 true figure)
  end.

Definition _get_slice_plot (study : Study) (params : list string)
  : M go.Figure :=
  let layout := slice_layout in
  let trials := filter (fun trial => state trial = COMPLETE) (trials study) in
  if decide (length trials = 0%nat) then
    do_ warning "Your study does not have any completed trials.";
    ret (go.new_Figure [] layout)
  else
    let all_params := all_params_of trials in
    match select_params all_params params with
    | inl input_p_name =>
        do_ warning (unknown_param_message input_p_name);
        ret (go.new_Figure [] layout)
    | inr sorted_params => slice_figure layout trials sorted_params
    end.

End Slice.

(** ** Running the builders on small studies *)

Module Examples.

Definition f1 : float := Eval vm_compute in PyFloat.of_Z 1.
Definition f3 : float := Eval vm_compute in PyFloat.of_Z 3.
Definition f5 : float := Eval vm_compute in PyFloat.of_Z 5.
Definition f8 : float := Eval vm_compute in PyFloat.of_Z 8.

Definition complete (n : Z) (v : float) : Trial :=
  mkTrial n COMPLETE (Some v) ∅ (Some []).

Definition study_5381 (d : StudyDirection) : Study :=
  mkStudy d [complete 0 f5; complete 1 f3; complete 2 f8; complete 3 f1].

End Examples.

(** ** The best-so-far sequence as the specification words it *)

(** The seed: +infinity for MINIMIZE, -infinity for MAXIMIZE. *)
Definition seed (d : StudyDirection) : float :=
  match d with MINIMIZE => PyFloat.inf | MAXIMIZE => PyFloat.neg_inf end.

(** best[i] = min/max(best[i-1], value[i]) according to the direction. *)
Definition better (d : StudyDirection) (prev v : float) : float :=
  match d with MINIMIZE => PyFloat.min prev v | MAXIMIZE => PyFloat.max prev v end.

Fixpoint running_best (d : StudyDirection) (prev : float) (values : list float)
  : list float :=
  match values with
  | [] => []
  | v :: rest => better d prev v :: running_best d (better d prev v) rest
  end.

Definition best_so_far (d : StudyDirection) (values : list float) : list float :=
  running_best d (seed d) values.

(** The trials the history and slice builders keep. *)
Definition complete_trials (study : Study) : list Trial :=
  filter (fun t => state t = COMPLETE) (trials study).

(** The trials the intermediate-values builder keeps. *)
Definition target_trials (study : Study) : list Trial :=
  filter (fun trial => state trial ∈ target_state) (trials study).

(** The two series of the optimization-history figure. *)
Definition objective_trace (trials : list Trial) : go.Scatter :=
  go.mkScatter (map (fun t => VInt (number t)) trials) (map value_coord trials)
               (Some "markers") go.no_marker (Some "Objective Value") None.

Definition best_trace (trials : list Trial) (best_values : list float)
  : go.Scatter :=
  go.mkScatter (map (fun t => VInt (number t)) trials) (map VFloat best_values)
               None go.no_marker (Some "Best Value") None.

(** The two directions of monotonicity, between every two entries. *)
Definition non_increasing (l : list float) : Prop :=
  StronglySorted (fun a b => PyFloat.le b a = true) l.

Definition non_decreasing (l : list float) : Prop :=
  StronglySorted (fun a b => PyFloat.le a b = true) l.

Module HistoryExamples.
Import Examples.

(** Trial 1 is COMPLETE but has no value. *)
Definition broken_study : Study :=
  mkStudy MINIMIZE
    [complete 0 f5; mkTrial 1 COMPLETE None ∅ (Some []); complete 2 f8].

End HistoryExamples.

(** The series of one trial: x the recorded steps in order, y their values,
    a line with markers of which at most 10 are displayed, named by the
    trial's number. *)
Definition series_of (t : Trial) (tr : go.Scatter) : Prop :=
  exists d, intermediate_values t = Some d
    /\ go.x tr = map (fun kv => VInt kv.1) d
    /\ go.y tr = map (fun kv => VFloat kv.2) d
    /\ go.mode tr = Some "lines+markers"
    /\ go.maxdisplayed (go.marker tr) = Some 10
    /\ go.name tr = Some ("Trial" +:+ pretty (number t)).

Definition pruning_warning : string :=
  "You need to set up the pruning feature to utilize plot_intermediate_values()".

Module IntermediateExamples.
Import Examples.

Definition pruned_study : Study :=
  mkStudy MINIMIZE
    [mkTrial 0 PRUNED None ∅ (Some [(0, f5); (1, f3)]);
     mkTrial 1 FAIL None ∅ (Some []);
     mkTrial 2 COMPLETE (Some f1) ∅ (Some [(0, f8); (1, f3); (2, f1)])].

(** The first kept trial has no [intermediate_values], the second has. *)
Definition mixed_study : Study :=
  mkStudy MINIMIZE
    [mkTrial 0 COMPLETE (Some f5) ∅ None;
     mkTrial 1 COMPLETE (Some f3) ∅ (Some [(0, f8); (1, f3)])].

(** The first kept trial has [intermediate_values], the second has not. *)
Definition mixed_study_rev : Study :=
  mkStudy MINIMIZE
    [mkTrial 0 COMPLETE (Some f3) ∅ (Some [(0, f8); (1, f3)]);
     mkTrial 1 COMPLETE (Some f5) ∅ None].

End IntermediateExamples.

(** C3 as the specification states it, for one study. *)
Definition intermediate_claim_as_stated (study : Study) : Prop :=
  target_trials study <> [] ->
  (Forall (fun t => intermediate_values t = None) (target_trials study) ->
   exists w, _get_intermediate_plot study
             = (w :: [], inr (go.new_Figure [] intermediate_layout)))
  /\ (Exists (fun t => is_Some (intermediate_values t)) (target_trials study) ->
      exists traces,
        _get_intermediate_plot study
        = ret (go.new_Figure traces intermediate_layout)
        /\ Forall2 series_of (target_trials study) traces).

Module SliceExamples.
Import Examples.

(** Trial 1 has no parameter [y]. *)
Definition xy_trials : list Trial :=
  [mkTrial 0 COMPLETE (Some f5) {[ "x" := VInt 1; "y" := VStr "a" ]} (Some []);
   mkTrial 1 COMPLETE (Some f3) {[ "x" := VInt 2 ]} (Some []);
   mkTrial 2 COMPLETE (Some f8) {[ "x" := VInt 3; "y" := VStr "b" ]} (Some [])].

Definition xy_study : Study := mkStudy MINIMIZE xy_trials.

(** A COMPLETE trial of an objective that samples no parameter. *)
Definition no_params_study : Study := mkStudy MINIMIZE [complete 0 f1].

End SliceExamples.

(** C6 as the specification states it, for one build. *)
Definition slice_unknown_claim_as_stated
    (make_subplots : Z -> Z -> bool -> exception + go.Figure)
    (study : Study) (params : list string) : Prop :=
  params <> [] ->
  forall pre p post,
    params = pre ++ p :: post ->
    Forall (fun q => q ∈ all_params_of (complete_trials study)) pre ->
    p ∉ all_params_of (complete_trials study) ->
    _get_slice_plot make_subplots study params
    = ([unknown_param_message p], inr (go.new_Figure [] slice_layout)).

(** The traces the loop adds, from column [i + 1] on. *)
Fixpoint loop_traces (trials : list Trial) (sorted_params : list string)
    (i : Z) (showscale : bool) : list (go.Scatter * option go.cell) :=
  match sorted_params with
  | [] => []
  | param :: rest =>
      (go.update_showscale (_generate_slice_subplot trials param) showscale,
       Some (1, i + 1))
        :: loop_traces trials rest (i + 1) false
  end.

(** One turn of the loop on the figure. *)
Definition loop_body (trials : list Trial) (param : string) (i : Z)
    (showscale : bool) (figure : go.Figure) : go.Figure :=
  let trace :=
    go.update_showscale (_generate_slice_subplot trials param) showscale in
  let figure := go.add_trace figure trace 1 (i + 1) in
  let figure := go.update_xaxes figure param (Some (1, i + 1)) in
  if decide (i = 0) then go.update_yaxes figure "Objective Value" (Some (1, 1))
  else figure.

(** ** More small studies *)

Module MoreExamples.
Import Examples.

(** The objective returned NaN for trials 0 and 2. *)
Definition nan_study (d : StudyDirection) : Study :=
  mkStudy d [complete 0 PyFloat.nan; complete 1 f3; complete 2 PyFloat.nan].

(** The values of [study_5381], negated. *)
Definition study_5381_negated (d : StudyDirection) : Study :=
  mkStudy d [complete 0 (SFopp f5); complete 1 (SFopp f3);
             complete 2 (SFopp f8); complete 3 (SFopp f1)].

(** A failed and a running trial among COMPLETE ones. *)
Definition busy_study : Study :=
  mkStudy MINIMIZE
    [mkTrial 0 COMPLETE (Some f5) {[ "x" := VInt 1 ]} (Some [(0, f8)]);
     mkTrial 1 FAIL None {[ "x" := VInt 2; "z" := VInt 0 ]} (Some []);
     mkTrial 2 RUNNING None {[ "x" := VInt 3 ]} (Some [(0, f3)]);
     mkTrial 3 COMPLETE (Some f1) {[ "x" := VInt 4 ]} (Some [(0, f1)])].

(** Trial 1 is COMPLETE and has the parameter [x], but no value. *)
Definition valueless_trials : list Trial :=
  [mkTrial 0 COMPLETE (Some f5) {[ "x" := VInt 1 ]} (Some []);
   mkTrial 1 COMPLETE None {[ "x" := VInt 2 ]} (Some [])].

End MoreExamples.

(** ** The entry points *)

(** What the module holds of the plotly installation: the flag and the
    error of the import at lines 15 to 23 (as [str] renders it), and
    [plotly.__version__]. *)
Record Installation := mkInstallation {
  _available : bool;
  _import_error : string;
  plotly_version : string
}.

(** What an entry point raises: its own [ImportError], or what the version
    comparison or the builder raised. *)
Inductive raised :=
| ImportError (msg : string)
| Propagated (e : exception).

(** What an entry point does: it logs warnings and shows figures. *)
Inductive event :=
| Warning (msg : string)
| Show (figure : go.Figure).

Definition P (A : Type) : Type := list event * (raised + A).

Definition pbind {A B} (m : P A) (k : A -> P B) : P B :=
  match m with
  | (ev, inl e) => (ev, inl e)
  | (ev, inr a) => let '(ev', r) := k a in (ev ++ ev', r)
  end.

(** Running a builder: its warnings are logged, its exception propagates. *)
Definition build {A} (m : M A) : P A :=
  (map Warning (warnings m),
   match outcome m with
   | inl e => inl (Propagated e)
   | inr a => inr a
   end).

(** [figure.show()] *)
Definition show (figure : go.Figure) : P unit := ([Show figure], inr tt).

Definition not_available_message (inst : Installation) : string :=
  "Plotly is not available. Please install plotly to use this feature. "
  +:+ "Plotly can be installed by executing `$ pip install plotly`. "
  +:+ "For further information, please refer to the installation guide of plotly. "
  +:+ "(The actual import error is as follows: "
  +:+ _import_error inst +:+ ")".

Definition old_version_message (inst : Installation) : string :=
  "Your version of Plotly is " +:+ plotly_version inst +:+ " . "
  +:+ "Please install plotly version 4.0.0 or higher. "
  +:+ "Plotly can be installed by executing `$ pip install -U plotly>=4.0.0`. "
  +:+ "For further information, please refer to the installation guide of plotly. ".

Section EntryPoints.

(** [StrictVersion(a) < StrictVersion(b)] of distutils, which is not part
    of this module; it raises on a string that is no strict version. *)
Variable version_lt : string -> string -> exception + bool.

Variable make_subplots : Z -> Z -> bool -> exception + go.Figure.

Definition _check_plotly_availability (inst : Installation) : P unit :=
  if negb (_available inst) then
    ([], inl (ImportError (not_available_message inst)))
  else
    match version_lt (plotly_version inst) "4.0.0" with
    | inl e => ([], inl (Propagated e))
    | inr true => ([], inl (ImportError (old_version_message inst)))
    | inr false => ([], inr tt)
    end.

Definition plot_intermediate_values (inst : Installation) (study : Study)
  : P unit :=
  pbind (_check_plotly_availability inst) (fun _ =>
  pbind (build (_get_intermediate_plot study)) (fun figure =>
  show figure)).

Definition plot_optimization_history (inst : Installation) (study : Study)
  : P unit :=
  pbind (_check_plotly_availability inst) (fun _ =>
  pbind (build (_get_optimization_history_plot study)) (fun figure =>
  show figure)).

Definition plot_slice (inst : Installation) (study : Study)
    (params : list string) : P unit :=
  pbind (_check_plotly_availability inst) (fun _ =>
  pbind (build (_get_slice_plot make_subplots study params)) (fun figure =>
  show figure)).

End EntryPoints.

(** An installation and a version comparison for the examples: plotly
    4.1.0 is installed, and the comparison knows this version only. *)
Module EntryExamples.

Definition installed : Installation := mkInstallation true "" "4.1.0".

Definition missing : Installation :=
  mkInstallation false "No module named 'plotly'" "".

Definition version_lt (a b : string) : exception + bool :=
  if decide (a = "4.1.0" /\ b = "4.0.0") then inr false
  else inl (ValueError ("invalid version number '" +:+ a +:+ "'")).

End EntryExamples.

(** Shape of the effects of an entry point: warnings only, then, exactly
    when it returns, one figure shown last. *)
Definition shows_once_at_the_end (run : P unit) : Prop :=
  (exists w figure, run = (map Warning w ++ [Show figure], inr tt))
  \/ (exists w e, run = (map Warning w, inl e)).

(** * Properties *)

(** ** Float comparison *)

Module PyFloatFacts.
Import PyFloat.

Lemma lt_le a b : lt a b = true -> le a b = true.
Proof.
  unfold lt, le, SFltb, SFleb.
  destruct (SFcompare a b) as [[]|]; congruence.
Qed.

Lemma lt_not_nan_l a b : lt a b = true -> is_nan a = false.
Proof. unfold lt, SFltb; destruct a, b; simpl; auto; congruence. Qed.

Lemma le_refl a : is_nan a = false -> le a a = true.
Proof.
  unfold le, SFleb.
  destruct a as [s|s| |s m e]; simpl; try congruence; intros _.
  - destruct s; reflexivity.
  - rewrite Z.compare_refl.
    change (Pos.compare_cont Eq m m) with (Pos.compare m m).
    rewrite Pos.compare_refl. destruct s; reflexivity.
Qed.

Lemma min_not_nan a b : is_nan a = false -> is_nan (min a b) = false.
Proof.
  unfold min. destruct (lt b a) eqn:E; eauto using lt_not_nan_l.
Qed.

Lemma lt_not_nan_r a b : lt a b = true -> is_nan b = false.
Proof. unfold lt, SFltb; destruct a, b; simpl; auto; congruence. Qed.

Lemma max_not_nan a b : is_nan a = false -> is_nan (max a b) = false.
Proof.
  unfold max. destruct (lt a b) eqn:E; eauto using lt_not_nan_r.
Qed.

Lemma min_le a b : is_nan a = false -> le (min a b) a = true.
Proof.
  unfold min. destruct (lt b a) eqn:E; auto using lt_le, le_refl.
Qed.

Lemma max_ge a b : is_nan a = false -> le a (max a b) = true.
Proof.
  unfold max. destruct (lt a b) eqn:E; auto using lt_le, le_refl.
Qed.

Lemma le_trans a b c : le a b = true -> le b c = true -> le a c = true.
Proof.
  unfold le, SFleb.
  destruct a as [sa|sa| |sa ma ea], b as [sb|sb| |sb mb eb],
           c as [sc|sc| |sc mc ec]; simpl;
    try (destruct sa); try (destruct sb); try (destruct sc);
    simpl; try congruence.
  all: change (Pos.compare_cont Eq) with Pos.compare.
  all: destruct (Z.compare_spec ea eb), (Z.compare_spec eb ec),
         (Z.compare_spec ea ec); simpl; try congruence; try lia; subst.
  all: destruct (Pos.compare_spec ma mb), (Pos.compare_spec mb mc),
         (Pos.compare_spec ma mc); simpl; try congruence; try lia.
Qed.

End PyFloatFacts.

(** ** The monad *)

Lemma bind_ret_l {A B} (a : A) (k : A -> M B) : bind (ret a) k = k a.
Proof. unfold bind, ret. destruct (k a) as [w r]. reflexivity. Qed.

Lemma getitem_last_snoc {A} (l : list A) (a : A) : getitem_last (l ++ [a]) = ret a.
Proof. unfold getitem_last. rewrite last_snoc. reflexivity. Qed.

(** ** The optimization-history loop *)

Section History.

Variable d : StudyDirection.

(** With float values throughout, the loop extends [best_values] by the
    running best of the values. *)
Lemma history_loop_floats trials : forall vs pre b,
  map value trials = map Some vs ->
  history_loop d trials (pre ++ [b]) = ret (pre ++ b :: running_best d b vs).
Proof.
  induction trials as [|t rest IH]; intros vs pre b Hvs.
  - destruct vs; [reflexivity | discriminate].
  - destruct vs as [|v vs]; [discriminate|].
    injection Hvs as Hv Hrest. simpl. rewrite Hv, bind_ret_l.
    rewrite getitem_last_snoc, bind_ret_l.
    assert (Hgo : history_loop d rest ((pre ++ [b]) ++ [better d b v])
                  = ret (pre ++ b :: better d b v :: running_best d (better d b v) vs)).
    { rewrite (IH vs (pre ++ [b]) (better d b v) Hrest).
      rewrite <- app_assoc. reflexivity. }
    destruct d; exact Hgo.
Qed.

Lemma history_best_values_floats trials vs :
  map value trials = map Some vs ->
  history_best_values d trials = ret (best_so_far d vs).
Proof.
  intros Hvs. unfold history_best_values.
  assert (Hseed : (if decide (d = MINIMIZE) then [PyFloat.inf]
                   else [SFopp PyFloat.inf]) = [] ++ [seed d])
    by (destruct d; reflexivity).
  rewrite Hseed, (history_loop_floats trials vs [] (seed d) Hvs), bind_ret_l.
  reflexivity.
Qed.

(** A COMPLETE trial without a float value stops the loop with the
    [ValueError] of the first such trial. *)
Lemma history_loop_non_float pre t post : forall vs acc b,
  map value pre = map Some vs ->
  value t = None ->
  history_loop d (pre ++ t :: post) (acc ++ [b])
  = raise (ValueError (non_float_message t)).
Proof.
  induction pre as [|p pre IH]; intros vs acc b Hvs Hnone.
  - simpl. rewrite Hnone. reflexivity.
  - destruct vs as [|v vs]; [discriminate|].
    injection Hvs as Hv Hrest. simpl. rewrite Hv, bind_ret_l.
    rewrite getitem_last_snoc, bind_ret_l.
    destruct d; simpl; eapply IH; eauto.
Qed.

Lemma running_best_length prev vs :
  length (running_best d prev vs) = length vs.
Proof. revert prev; induction vs; intros; simpl; auto. Qed.

End History.

(** A list of optional values either has a first [None] or is all [Some]. *)
Lemma values_split (ts : list Trial) :
  (exists vs, map value ts = map Some vs)
  \/ (exists pre t post vs, ts = pre ++ t :: post
                            /\ map value pre = map Some vs /\ value t = None).
Proof.
  induction ts as [|t ts IH].
  - left. exists []. reflexivity.
  - destruct (value t) as [v|] eqn:Hv.
    + destruct IH as [[vs Hvs] | (pre & t' & post & vs & -> & Hvs & Hnone)].
      * left. exists (v :: vs). simpl. congruence.
      * right. exists (t :: pre), t', post, (v :: vs). simpl.
        repeat split; congruence.
    + right. exists [], t, ts, []. auto.
Qed.

Lemma numeric_values (ts : list Trial) :
  Forall (fun t => is_Some (value t)) ts <-> exists vs, map value ts = map Some vs.
Proof.
  split.
  - induction 1 as [|t ts [v Hv] _ IH].
    + exists []. reflexivity.
    + destruct IH as [vs IH]. exists (v :: vs). simpl. congruence.
  - intros [vs Hvs]. revert vs Hvs.
    induction ts as [|t ts IH]; intros vs Hvs; constructor;
      destruct vs as [|v vs]; try discriminate; injection Hvs as Hv Hrest; eauto.
Qed.

(** The figure of the optimization-history build once the best-so-far
    sequence is known. *)
Lemma history_plot_of_best study best :
  complete_trials study <> [] ->
  history_best_values (direction study) (complete_trials study) = ret best ->
  _get_optimization_history_plot study
  = ret (go.new_Figure [objective_trace (complete_trials study);
                        best_trace (complete_trials study) best]
                       history_layout).
Proof.
  intros Hne Hbest. unfold _get_optimization_history_plot.
  fold (complete_trials study).
  destruct (decide (length (complete_trials study) = 0%nat)) as [H0|_].
  - destruct (complete_trials study); [congruence | discriminate].
  - rewrite Hbest, bind_ret_l. reflexivity.
Qed.

Lemma history_plot_empty study :
  complete_trials study = [] ->
  _get_optimization_history_plot study
  = (["Study instance does not contain trials."],
     inr (go.new_Figure [] history_layout)).
Proof.
  intros He. unfold _get_optimization_history_plot.
  fold (complete_trials study). rewrite He. reflexivity.
Qed.

(** C1: when every COMPLETE trial has a float value, the best-so-far
    sequence the optimization-history build computes is the running min
    (MINIMIZE) or max (MAXIMIZE) of the values in trial order, seeded with
    +infinity or -infinity, and it is the y-series of the figure's second
    trace; for the values 5, 3, 8, 1 it is 5, 3, 3, 1 under MINIMIZE and
    5, 5, 8, 8 under MAXIMIZE. *)
Theorem history_best_so_far_running (study : Study) (vs : list float) :
  map value (complete_trials study) = map Some vs ->
  history_best_values (direction study) (complete_trials study)
  = ret (running_best (direction study) (seed (direction study)) vs)
  /\ (vs <> [] ->
      _get_optimization_history_plot study
      = ret (go.new_Figure
               [objective_trace (complete_trials study);
                best_trace (complete_trials study)
                  (running_best (direction study) (seed (direction study)) vs)]
               history_layout))
  /\ history_best_values MINIMIZE
       (complete_trials (Examples.study_5381 MINIMIZE))
     = ret [Examples.f5; Examples.f3; Examples.f3; Examples.f1]
  /\ history_best_values MAXIMIZE
       (complete_trials (Examples.study_5381 MAXIMIZE))
     = ret [Examples.f5; Examples.f5; Examples.f8; Examples.f8].
Proof.
  intros Hvs.
  pose proof (history_best_values_floats (direction study) _ _ Hvs) as Hbest.
  split; [exact Hbest|]. split; [|split; reflexivity].
  intros Hne. apply history_plot_of_best; [|exact Hbest].
  intros He. rewrite He in Hvs. destruct vs; [congruence | discriminate].
Qed.

Lemma history_best_so_far_running_witness :
  _get_optimization_history_plot (Examples.study_5381 MINIMIZE)
  = ret (go.new_Figure
           [objective_trace (complete_trials (Examples.study_5381 MINIMIZE));
            best_trace (complete_trials (Examples.study_5381 MINIMIZE))
              [Examples.f5; Examples.f3; Examples.f3; Examples.f1]]
           history_layout).
Proof.
  refine (proj1 (proj2 (history_best_so_far_running
           (Examples.study_5381 MINIMIZE)
           [Examples.f5; Examples.f3; Examples.f8; Examples.f1] _)) _).
  - reflexivity.
  - discriminate.
Defined.

(** ** Monotonicity of the best-so-far sequence *)

Lemma running_best_min_sorted vs : forall prev,
  PyFloat.is_nan prev = false ->
  Forall (fun b => PyFloat.le b prev = true) (running_best MINIMIZE prev vs)
  /\ non_increasing (running_best MINIMIZE prev vs).
Proof.
  induction vs as [|v vs IH]; intros prev Hprev; simpl.
  - split; constructor.
  - pose proof (PyFloatFacts.min_not_nan prev v Hprev) as Hb.
    pose proof (PyFloatFacts.min_le prev v Hprev) as Hle.
    destruct (IH _ Hb) as [Hall Hsorted]. split.
    + constructor; [exact Hle|].
      eapply Forall_impl; [exact Hall|]. simpl. intros c Hc.
      eapply PyFloatFacts.le_trans; eauto.
    + constructor; assumption.
Qed.

Lemma running_best_max_sorted vs : forall prev,
  PyFloat.is_nan prev = false ->
  Forall (fun b => PyFloat.le prev b = true) (running_best MAXIMIZE prev vs)
  /\ non_decreasing (running_best MAXIMIZE prev vs).
Proof.
  induction vs as [|v vs IH]; intros prev Hprev; simpl.
  - split; constructor.
  - pose proof (PyFloatFacts.max_not_nan prev v Hprev) as Hb.
    pose proof (PyFloatFacts.max_ge prev v Hprev) as Hle.
    destruct (IH _ Hb) as [Hall Hsorted]. split.
    + constructor; [exact Hle|].
      eapply Forall_impl; [exact Hall|]. simpl. intros c Hc.
      eapply PyFloatFacts.le_trans; eauto.
    + constructor; assumption.
Qed.

(** C4: when every COMPLETE trial has a numeric value, the best-so-far
    series of the optimization-history build has one entry per COMPLETE
    trial and is non-increasing under MINIMIZE and non-decreasing under
    MAXIMIZE. *)
Theorem history_best_monotone (study : Study) :
  Forall (fun t => is_Some (value t)) (complete_trials study) ->
  exists best,
    history_best_values (direction study) (complete_trials study) = ret best
    /\ (complete_trials study <> [] ->
        _get_optimization_history_plot study
        = ret (go.new_Figure [objective_trace (complete_trials study);
                              best_trace (complete_trials study) best]
                             history_layout))
    /\ length best = length (complete_trials study)
    /\ (direction study = MINIMIZE -> non_increasing best)
    /\ (direction study = MAXIMIZE -> non_decreasing best).
Proof.
  intros Hnum.
  destruct (values_split (complete_trials study))
    as [[vs Hvs] | (pre & t & post & vs & Heq & _ & Hnone)].
  2:{ rewrite Heq in Hnum. apply Forall_app in Hnum as [_ Hnum].
      apply Forall_cons in Hnum as [[v Hv] _]. congruence. }
  pose proof (history_best_values_floats (direction study) _ _ Hvs) as Hbest.
  exists (best_so_far (direction study) vs).
  split; [exact Hbest|]. split; [|split; [|split]].
  - intros Hne. apply history_plot_of_best; assumption.
  - unfold best_so_far. rewrite running_best_length.
    rewrite <- (length_map Some vs), <- Hvs, length_map. reflexivity.
  - intros ->. apply running_best_min_sorted. reflexivity.
  - intros ->. apply running_best_max_sorted. reflexivity.
Qed.

Lemma history_best_monotone_witness :
  exists best,
    history_best_values MINIMIZE (complete_trials (Examples.study_5381 MINIMIZE))
    = ret best
    /\ length best = 4%nat /\ non_increasing best.
Proof.
  destruct (history_best_monotone (Examples.study_5381 MINIMIZE))
    as (best & Hbest & _ & Hlen & Hmin & _).
  - repeat constructor; eexists; reflexivity.
  - exists best. split; [exact Hbest|]. split; [exact Hlen|].
    apply Hmin. reflexivity.
Defined.

(** ** The data-integrity fault *)

Lemma history_plot_non_float study pre t post :
  complete_trials study = pre ++ t :: post ->
  Forall (fun p => is_Some (value p)) pre ->
  value t = None ->
  _get_optimization_history_plot study
  = raise (ValueError ("Trial" +:+ pretty (number t)
                       +:+ " has COMPLETE state, but its value is non float.")).
Proof.
  intros Heq Hpre Hnone.
  apply numeric_values in Hpre as [vs Hvs].
  unfold _get_optimization_history_plot. fold (complete_trials study).
  rewrite Heq.
  destruct (decide (length (pre ++ t :: post) = 0%nat)) as [H0|_].
  { rewrite length_app in H0. simpl in H0. lia. }
  unfold history_best_values.
  assert (Hseed : (if decide (direction study = MINIMIZE) then [PyFloat.inf]
                   else [SFopp PyFloat.inf]) = [] ++ [seed (direction study)])
    by (destruct (direction study); reflexivity).
  rewrite Hseed.
  rewrite (history_loop_non_float (direction study) pre t post vs [] _ Hvs Hnone).
  reflexivity.
Qed.

Lemma history_plot_numeric study :
  Forall (fun t => is_Some (value t)) (complete_trials study) ->
  exists w fig, _get_optimization_history_plot study = (w, inr fig).
Proof.
  intros Hnum.
  destruct (complete_trials study) as [|t0 ts] eqn:Hc.
  - rewrite (history_plot_empty study Hc). eauto.
  - rewrite <- Hc in Hnum. apply numeric_values in Hnum as [vs Hvs].
    pose proof (history_best_values_floats (direction study) _ _ Hvs) as Hb.
    rewrite (history_plot_of_best study _ ltac:(congruence) Hb).
    eexists _, _. reflexivity.
Qed.

Lemma string_length_app (s1 s2 : string) :
  String.length (s1 +:+ s2) = (String.length s1 + String.length s2)%nat.
Proof.
  induction s1 as [|c s1 IH]; [reflexivity|].
  change (S (String.length (s1 +:+ s2))
          = S (String.length s1 + String.length s2)).
  f_equal. exact IH.
Qed.

Lemma string_app_inj_r (t s1 s2 : string) : s1 +:+ t = s2 +:+ t -> s1 = s2.
Proof.
  revert s2. induction s1 as [|c s1 IH]; intros [|c2 s2] H.
  - reflexivity.
  - apply (f_equal String.length) in H.
    change (String.length t = S (String.length (s2 +:+ t))) in H. rewrite string_length_app in H. lia.
  - apply (f_equal String.length) in H.
    change (S (String.length (s1 +:+ t)) = String.length t) in H. rewrite string_length_app in H. lia.
  - change (String c (s1 +:+ t) = String c2 (s2 +:+ t)) in H.
    injection H as -> H. f_equal. apply IH. exact H.
Qed.

(** The message names the trial: distinct numbers give distinct messages. *)
Lemma non_float_message_inj t1 t2 :
  non_float_message t1 = non_float_message t2 -> number t1 = number t2.
Proof.
  unfold non_float_message. intros H.
  apply (inj (String.app "Trial")) in H.
  apply string_app_inj_r in H.
  apply (inj pretty) in H. exact H.
Qed.

(** C2: the optimization-history build raises a [ValueError] exactly when
    some COMPLETE trial has no numeric value; the message then carries the
    number of the first such trial; and when every COMPLETE trial has a
    numeric value the build raises nothing. *)
Theorem history_value_error_iff (study : Study) :
  ((exists w msg, _get_optimization_history_plot study = (w, inl (ValueError msg)))
   <-> Exists (fun t => value t = None) (complete_trials study))
  /\ (forall pre t post,
        complete_trials study = pre ++ t :: post ->
        Forall (fun p => is_Some (value p)) pre ->
        value t = None ->
        _get_optimization_history_plot study
        = raise (ValueError
                   ("Trial" +:+ pretty (number t)
                    +:+ " has COMPLETE state, but its value is non float.")))
  /\ (Forall (fun t => is_Some (value t)) (complete_trials study) ->
      exists w fig, _get_optimization_history_plot study = (w, inr fig)).
Proof.
  split; [|split].
  - split.
    + intros (w & msg & Hraise).
      destruct (values_split (complete_trials study))
        as [[vs Hvs] | (pre & t & post & vs & Heq & _ & Hnone)].
      * assert (Hnum : Forall (fun t => is_Some (value t)) (complete_trials study))
          by (apply numeric_values; eauto).
        destruct (history_plot_numeric study Hnum) as (w' & fig & Hok).
        congruence.
      * rewrite Heq. apply Exists_app. right. constructor. exact Hnone.
    + intros Hex.
      destruct (values_split (complete_trials study))
        as [[vs Hvs] | (pre & t & post & vs & Heq & Hvs & Hnone)].
      * exfalso.
        assert (Hnum : Forall (fun t => is_Some (value t)) (complete_trials study))
          by (apply numeric_values; eauto).
        apply Exists_exists in Hex as (t & Hin & Hnone).
        rewrite Forall_forall in Hnum. destruct (Hnum t Hin) as [v Hv].
        congruence.
      * eexists [], _. eapply history_plot_non_float; eauto.
        apply numeric_values; eauto.
  - apply history_plot_non_float.
  - apply history_plot_numeric.
Qed.

Lemma history_value_error_iff_witness :
  _get_optimization_history_plot HistoryExamples.broken_study
  = raise (ValueError "Trial1 has COMPLETE state, but its value is non float.").
Proof.
  refine (proj1 (proj2 (history_value_error_iff HistoryExamples.broken_study))
            [Examples.complete 0 Examples.f5]
            (mkTrial 1 COMPLETE None ∅ (Some []))
            [Examples.complete 2 Examples.f8] _ _ _).
  - reflexivity.
  - repeat constructor. eexists; reflexivity.
  - reflexivity.
Defined.

(** ** The intermediate-values build *)

Lemma intermediate_loop_all trials : forall ds acc,
  map intermediate_values trials = map Some ds ->
  intermediate_loop trials acc
  = ret (acc ++ zip_with intermediate_trace trials ds).
Proof.
  induction trials as [|t rest IH]; intros ds acc Hds.
  - destruct ds; [|discriminate]. simpl. rewrite app_nil_r. reflexivity.
  - destruct ds as [|d ds]; [discriminate|]. injection Hds as Hd Hrest.
    simpl. unfold getattr_intermediate_values. rewrite Hd, bind_ret_l.
    rewrite (IH ds _ Hrest), <- app_assoc. reflexivity.
Qed.

Lemma zip_with_series trials : forall ds,
  map intermediate_values trials = map Some ds ->
  Forall2 series_of trials (zip_with intermediate_trace trials ds).
Proof.
  induction trials as [|t rest IH]; intros [|d ds] Hds; try discriminate.
  - constructor.
  - injection Hds as Hd Hrest. simpl. constructor; [|auto].
    exists d. repeat split; auto.
Qed.

Lemma exposes_all (ts : list Trial) :
  Forall (fun t => is_Some (intermediate_values t)) ts ->
  exists ds, map intermediate_values ts = map Some ds.
Proof.
  induction 1 as [|t ts [d Hd] _ [ds IH]].
  - exists []. reflexivity.
  - exists (d :: ds). simpl. congruence.
Qed.

(** C3, as the code has it: over a study with at least one PRUNED, COMPLETE
    or RUNNING trial, when the first such trial exposes no intermediate
    values the build logs a warning and returns the empty figure; when every
    such trial exposes them it returns one series per such trial, in order,
    each with the trial's steps as x, its values as y, lines and markers,
    at most 10 markers displayed and the trial's number as its name. *)
Theorem intermediate_plot_series (study : Study) (t0 : Trial) (rest : list Trial) :
  target_trials study = t0 :: rest ->
  (intermediate_values t0 = None ->
   _get_intermediate_plot study
   = ([pruning_warning], inr (go.new_Figure [] intermediate_layout)))
  /\ (Forall (fun t => is_Some (intermediate_values t)) (target_trials study) ->
      exists traces,
        _get_intermediate_plot study
        = ret (go.new_Figure traces intermediate_layout)
        /\ Forall2 series_of (target_trials study) traces).
Proof.
  intros Htarget. unfold _get_intermediate_plot. fold (target_trials study).
  rewrite Htarget. split.
  - intros Hnone. unfold hasattr_intermediate_values. rewrite Hnone.
    reflexivity.
  - intros Hall. pose proof Hall as Hall'.
    apply Forall_cons in Hall' as [[d0 Hd0] _].
    apply exposes_all in Hall as [ds Hds].
    unfold hasattr_intermediate_values. rewrite Hd0.
    rewrite bool_decide_eq_false_2
      by (rewrite bool_decide_eq_true_2 by eauto; discriminate).
    rewrite (intermediate_loop_all _ ds [] Hds), bind_ret_l.
    eexists. split; [reflexivity|]. apply zip_with_series. exact Hds.
Qed.

Lemma intermediate_plot_series_witness :
  exists traces,
    _get_intermediate_plot IntermediateExamples.pruned_study
    = ret (go.new_Figure traces intermediate_layout)
    /\ Forall2 series_of (target_trials IntermediateExamples.pruned_study) traces.
Proof.
  refine (proj2 (intermediate_plot_series IntermediateExamples.pruned_study
                   _ _ _) _).
  - reflexivity.
  - repeat constructor; eexists; reflexivity.
Defined.

(** The build looks at the first kept trial only: here it has no
    intermediate values while the second has, and the build returns the
    empty figure instead of two series. *)
Lemma intermediate_claim_fails_on_mixed_study :
  _get_intermediate_plot IntermediateExamples.mixed_study
  = ([pruning_warning], inr (go.new_Figure [] intermediate_layout))
  /\ ~ intermediate_claim_as_stated IntermediateExamples.mixed_study.
Proof.
  split; [reflexivity|]. intros Hclaim.
  destruct Hclaim as [_ Hsome]; [discriminate|].
  destruct Hsome as (traces & Hrun & _).
  - apply Exists_cons_tl. apply Exists_cons_hd. eexists; reflexivity.
  - discriminate Hrun.
Qed.

(** With the mix the other way round, the loop reaches a trial without the
    attribute and the build ends in an [AttributeError]. *)
Example intermediate_plot_attribute_error :
  _get_intermediate_plot IntermediateExamples.mixed_study_rev
  = raise (AttributeError "intermediate_values").
Proof. reflexivity. Qed.

(** ** Studies without trials *)

(** C5: on a study with no trials each of the three builders logs one
    warning, raises nothing and returns a figure with no series and the
    builder's layout. *)
Theorem empty_study_empty_figures
    (d : StudyDirection) (make_subplots : Z -> Z -> bool -> exception + go.Figure)
    (params : list string) :
  (_get_intermediate_plot (mkStudy d [])
   = (["Study instance does not contain trials."],
      inr (go.mkFigure [] intermediate_layout None))
   /\ go.title intermediate_layout = Some "Intermediate Values Plot")
  /\ (_get_optimization_history_plot (mkStudy d [])
      = (["Study instance does not contain trials."],
         inr (go.mkFigure [] history_layout None))
      /\ go.title history_layout = Some "Optimization History Plot")
  /\ (_get_slice_plot make_subplots (mkStudy d []) params
      = (["Your study does not have any completed trials."],
         inr (go.mkFigure [] slice_layout None))
      /\ go.title slice_layout = Some "Slice Plot").
Proof. repeat split. Qed.

(** ** One panel of the slice plot *)

Lemma slice_x_of_kept (trials : list Trial) (param : string) :
  Forall2 (fun t v => params t !! param = Some v)
          (filter (has_param param) trials)
          (omap (fun t => params t !! param) trials).
Proof.
  induction trials as [|t ts IH]; simpl.
  - constructor.
  - rewrite filter_cons.
    destruct (decide (has_param param t)) as [[v Hp]|Hno].
    + rewrite Hp. constructor; [exact Hp | exact IH].
    + destruct (params t !! param) as [v|] eqn:Hp; [|exact IH].
      exfalso. apply Hno. exists v. exact Hp.
Qed.

(** C9: the series of a parameter's panel is made of the trials whose
    [params] contain the parameter, in trial order: x their values for the
    parameter, y their objective values (the float [value] of each trial,
    [None] where a trial has none), the marker colours their numbers, all
    three of the same length; a trial that lacks the parameter is absent
    from this panel and still present in the panel of every parameter it
    has. *)
Theorem slice_subplot_series (trials : list Trial) (param : string) :
  let kept := filter (has_param param) trials in
  let trace := _generate_slice_subplot trials param in
  Forall2 (fun t v => params t !! param = Some v) kept (go.x trace)
  /\ go.y trace
     = map (fun t => match value t with
                     | Some v => VFloat v
                     | None => VNone
                     end) kept
  /\ go.color (go.marker trace) = Some (map number kept)
  /\ length (go.x trace) = length kept
  /\ length (go.y trace) = length kept
  /\ length (map number kept) = length kept
  /\ (forall t, t ∈ kept <-> t ∈ trials /\ is_Some (params t !! param))
  /\ (forall t other, t ∈ trials -> params t !! param = None ->
        is_Some (params t !! other) ->
        (t ∉ kept)
        /\ (t ∈ filter (has_param other) trials)
        /\ go.color (go.marker (_generate_slice_subplot trials other))
           = Some (map number (filter (has_param other) trials))).
Proof.
  intros kept trace. pose proof (slice_x_of_kept trials param) as Hx.
  split; [exact Hx|]. split; [reflexivity|]. split; [reflexivity|].
  split; [symmetry; eapply Forall2_length; exact Hx|].
  split; [apply length_map|]. split; [apply length_map|]. split.
  - intros t. subst kept. rewrite list_elem_of_filter. unfold has_param. tauto.
  - intros t other Hin Hnone Hother. split; [|split].
    + subst kept. rewrite list_elem_of_filter. unfold has_param.
      rewrite Hnone. intros [[? ?] _]. discriminate.
    + apply list_elem_of_filter. split; assumption.
    + reflexivity.
Qed.

Lemma slice_subplot_series_witness :
  go.y (_generate_slice_subplot SliceExamples.xy_trials "y")
  = [VFloat Examples.f5; VFloat Examples.f8]
  /\ (mkTrial 1 COMPLETE (Some Examples.f3) {[ "x" := VInt 2 ]} (Some [])
    ∉ filter (has_param "y") SliceExamples.xy_trials)
  /\ (mkTrial 1 COMPLETE (Some Examples.f3) {[ "x" := VInt 2 ]} (Some [])
    ∈ filter (has_param "x") SliceExamples.xy_trials)
  /\ go.color (go.marker (_generate_slice_subplot SliceExamples.xy_trials "x"))
     = Some (map number (filter (has_param "x") SliceExamples.xy_trials)).
Proof.
  split.
  - exact (proj1 (proj2 (slice_subplot_series SliceExamples.xy_trials "y"))).
  - refine (proj2 (proj2 (proj2 (proj2 (proj2 (proj2 (proj2
              (slice_subplot_series SliceExamples.xy_trials "y")))))))
              _ "x" _ _ _).
    + apply list_elem_of_In. right. left. reflexivity.
    + reflexivity.
    + eexists. reflexivity.
Defined.

(** ** Selecting the parameters of the slice plot *)

Lemma select_params_unknown (all_params : gset string) pre p post :
  Forall (fun q => q ∈ all_params) pre ->
  p ∉ all_params ->
  select_params all_params (pre ++ p :: post) = inl p.
Proof.
  intros Hpre Hp. unfold select_params.
  rewrite decide_False by (rewrite length_app; simpl; lia).
  assert (Hfind : list_find (fun q => q ∉ all_params) (pre ++ p :: post)
                  = Some (length pre, p)).
  { apply list_find_Some. split; [|split].
    - apply list_lookup_middle. reflexivity.
    - exact Hp.
    - intros j q Hj Hlt Hq. rewrite lookup_app_l in Hj by exact Hlt.
      rewrite Forall_forall in Hpre. apply Hq, Hpre.
      eapply list_elem_of_lookup_2, Hj. }
  rewrite Hfind. reflexivity.
Qed.

Lemma select_params_known (all_params : gset string) params :
  params <> [] ->
  Forall (fun q => q ∈ all_params) params ->
  select_params all_params params
  = inr (sorted (elements (list_to_set params : gset string))).
Proof.
  intros Hne Hall. unfold select_params.
  rewrite decide_False by (destruct params; [congruence | discriminate]).
  destruct (list_find _ params) as [[i q]|] eqn:Hfind; [|reflexivity].
  apply list_find_Some in Hfind as (Hi & Hq & _).
  rewrite Forall_forall in Hall. exfalso. apply Hq, Hall.
  eapply list_elem_of_lookup_2, Hi.
Qed.

Lemma slice_plot_complete make_subplots study params :
  complete_trials study <> [] ->
  _get_slice_plot make_subplots study params
  = match select_params (all_params_of (complete_trials study)) params with
    | inl input_p_name =>
        ([unknown_param_message input_p_name],
         inr (go.new_Figure [] slice_layout))
    | inr sorted_params =>
        slice_figure make_subplots slice_layout (complete_trials study)
          sorted_params
    end.
Proof.
  intros Hne. unfold _get_slice_plot. fold (complete_trials study).
  rewrite decide_False
    by (destruct (complete_trials study); [congruence | discriminate]).
  destruct (select_params _ params); reflexivity.
Qed.

(** C6, as the code has it: over a study with at least one COMPLETE trial,
    a requested name that no COMPLETE trial has, with every name requested
    before it known, makes the slice build warn about that name and return
    the empty figure: nothing is raised, the subplot constructor is not
    called and no panel is rendered. *)
Theorem slice_unknown_param
    (make_subplots : Z -> Z -> bool -> exception + go.Figure)
    (study : Study) (pre : list string) (p : string) (post : list string) :
  complete_trials study <> [] ->
  Forall (fun q => q ∈ all_params_of (complete_trials study)) pre ->
  p ∉ all_params_of (complete_trials study) ->
  _get_slice_plot make_subplots study (pre ++ p :: post)
  = (["Parameter " +:+ p +:+ " does not exist in your study."],
     inr (go.mkFigure [] slice_layout None)).
Proof.
  intros Hne Hpre Hp. rewrite slice_plot_complete by exact Hne.
  rewrite (select_params_unknown _ pre p post Hpre Hp). reflexivity.
Qed.

Lemma slice_unknown_param_witness :
  _get_slice_plot plotly_make_subplots SliceExamples.xy_study ["x"; "z"; "y"]
  = (["Parameter z does not exist in your study."],
     inr (go.mkFigure [] slice_layout None)).
Proof.
  refine (slice_unknown_param plotly_make_subplots SliceExamples.xy_study
            ["x"] "z" ["y"] _ _ _).
  - discriminate.
  - constructor; [vm_compute; reflexivity | constructor].
  - vm_compute. intros H. discriminate H.
Defined.

(** Without a COMPLETE trial every requested name is unknown, and the build
    warns about the missing trials, not about the name. *)
Lemma slice_unknown_claim_fails_without_trials :
  _get_slice_plot plotly_make_subplots (mkStudy MINIMIZE []) ["x"]
  = (["Your study does not have any completed trials."],
     inr (go.new_Figure [] slice_layout))
  /\ ~ slice_unknown_claim_as_stated plotly_make_subplots
        (mkStudy MINIMIZE []) ["x"].
Proof.
  split; [reflexivity|]. intros Hclaim.
  specialize (Hclaim ltac:(discriminate) [] "x" [] eq_refl).
  discriminate Hclaim.
  - constructor.
  - apply not_elem_of_empty.
Qed.

(** ** The names a slice plot shows *)

Lemma elem_of_all_params (trials : list Trial) (s : string) :
  s ∈ all_params_of trials <-> exists t, t ∈ trials /\ is_Some (params t !! s).
Proof.
  unfold all_params_of. rewrite elem_of_union_list. split.
  - intros (X & HX & Hs). apply list_elem_of_fmap in HX as (t & -> & Ht).
    exists t. split; [exact Ht|]. apply elem_of_dom. exact Hs.
  - intros (t & Ht & Hs). exists (dom (params t)). split.
    + apply list_elem_of_fmap. exists t. split; [reflexivity | exact Ht].
    + apply elem_of_dom. exact Hs.
Qed.

(** [sorted(list(X))] of a set: its members, each once, in ascending order. *)
Lemma sorted_elements (X : gset string) :
  StronglySorted String.le (sorted (elements X))
  /\ NoDup (sorted (elements X))
  /\ (forall s, s ∈ sorted (elements X) <-> s ∈ X).
Proof.
  split; [apply StronglySorted_merge_sort; apply _|]. split.
  - unfold sorted. rewrite merge_sort_Permutation. apply NoDup_elements.
  - intros s. unfold sorted. rewrite merge_sort_Permutation.
    apply elem_of_elements.
Qed.

Lemma all_params_empty (trials : list Trial) :
  Forall (fun t => params t = ∅) trials -> all_params_of trials = ∅.
Proof.
  intros Hall. apply set_eq. intros s. rewrite elem_of_all_params. split.
  - intros (t & Ht & [v Hv]). rewrite Forall_forall in Hall.
    rewrite (Hall t Ht), lookup_empty in Hv. discriminate.
  - intros H. exfalso. exact (not_elem_of_empty s H).
Qed.

(** The panel set of a slice build over COMPLETE trials [trials]: with no
    requested name, the names of all their parameters in ascending order;
    with requested names that are all known, these names, each once, in
    ascending order. *)
Lemma slice_panel_set (trials : list Trial) (requested : list string) :
  Forall (fun q => q ∈ all_params_of trials) requested ->
  exists sorted_params,
    select_params (all_params_of trials) requested = inr sorted_params
    /\ StronglySorted String.le sorted_params
    /\ NoDup sorted_params
    /\ (forall s, s ∈ sorted_params <->
          if decide (requested = [])
          then exists t, t ∈ trials /\ is_Some (params t !! s)
          else s ∈ requested).
Proof.
  intros Hknown. destruct requested as [|q qs].
  - exists (sorted (elements (all_params_of trials))).
    split; [reflexivity|].
    destruct (sorted_elements (all_params_of trials)) as (Hs & Hn & Hm).
    split; [exact Hs|]. split; [exact Hn|].
    intros s. rewrite Hm. simpl. apply elem_of_all_params.
  - exists (sorted (elements (list_to_set (q :: qs) : gset string))).
    split; [apply select_params_known; [discriminate | exact Hknown]|].
    destruct (sorted_elements (list_to_set (q :: qs))) as (Hs & Hn & Hm).
    split; [exact Hs|]. split; [exact Hn|].
    intros s. rewrite Hm. rewrite decide_False by discriminate.
    apply elem_of_list_to_set.
Qed.

(** C10: over a study with a COMPLETE trial whose COMPLETE trials have no
    parameter at all, the slice build with the default empty [params]
    selects no name, logs no warning and hands the subplot constructor one
    row and zero columns: its result is what the constructor makes of that
    call, the empty-figure returns are not taken. *)
Theorem slice_no_params_zero_columns
    (make_subplots : Z -> Z -> bool -> exception + go.Figure) (study : Study) :
  complete_trials study <> [] ->
  Forall (fun t => params t = ∅) (complete_trials study) ->
  select_params (all_params_of (complete_trials study)) [] = inr []
  /\ _get_slice_plot make_subplots study []
     = (do figure <- lift (make_subplots 1 0 true);
        ret (go.update_layout figure slice_layout))
  /\ warnings (_get_slice_plot make_subplots study []) = []
  /\ outcome (_get_slice_plot make_subplots study [])
     = match make_subplots 1 0 true with
       | inl e => inl e
       | inr figure => inr (go.update_layout figure slice_layout)
       end.
Proof.
  intros Hne Hnone.
  assert (Hsel : select_params (all_params_of (complete_trials study)) []
                 = inr []).
  { rewrite (all_params_empty _ Hnone). reflexivity. }
  assert (Hrun : _get_slice_plot make_subplots study []
                 = (do figure <- lift (make_subplots 1 0 true);
                    ret (go.update_layout figure slice_layout))).
  { rewrite slice_plot_complete by exact Hne. rewrite Hsel. reflexivity. }
  split; [exact Hsel|]. split; [exact Hrun|].
  rewrite Hrun. destruct (make_subplots 1 0 true); split; reflexivity.
Qed.

Lemma slice_no_params_zero_columns_witness :
  outcome (_get_slice_plot plotly_make_subplots SliceExamples.no_params_study [])
  = match plotly_make_subplots 1 0 true with
    | inl e => inl e
    | inr figure => inr (go.update_layout figure slice_layout)
    end.
Proof.
  refine (proj2 (proj2 (proj2 (slice_no_params_zero_columns
            plotly_make_subplots SliceExamples.no_params_study _ _)))).
  - discriminate.
  - repeat constructor.
Defined.

(** C7 at a study whose only COMPLETE trial has no parameter: no name is
    selected, and plotly's subplot constructor, called with zero columns,
    raises: the build returns no figure. *)
Theorem slice_no_params_raises :
  complete_trials SliceExamples.no_params_study <> []
  /\ select_params
       (all_params_of (complete_trials SliceExamples.no_params_study)) []
     = inr []
  /\ _get_slice_plot plotly_make_subplots SliceExamples.no_params_study []
     = raise (ValueError
         "The 'cols' argument to make_suplots must be an int greater than 0.").
Proof. split; [discriminate|]. split; reflexivity. Qed.

(** ** The panels of the slice plot *)

Section SliceLoop.

Variable trials : list Trial.

Lemma slice_loop_cons p ps i showscale fig :
  slice_loop trials (p :: ps) i showscale fig
  = slice_loop trials ps (i + 1) false (loop_body trials p i showscale fig).
Proof. destruct showscale; reflexivity. Qed.

Lemma loop_body_data p i showscale fig :
  go.data (loop_body trials p i showscale fig)
  = go.data fig
    ++ [(go.update_showscale (_generate_slice_subplot trials p) showscale,
         Some (1, i + 1))].
Proof. unfold loop_body. destruct (decide (i = 0)); reflexivity. Qed.

Lemma loop_body_grid p i showscale fig :
  go.grid (loop_body trials p i showscale fig) = go.grid fig.
Proof. unfold loop_body. destruct (decide (i = 0)); reflexivity. Qed.

Lemma loop_body_title p i showscale fig :
  go.title (go.layout (loop_body trials p i showscale fig))
  = go.title (go.layout fig).
Proof. unfold loop_body. destruct (decide (i = 0)); reflexivity. Qed.

Lemma loop_body_xaxis p i showscale fig :
  go.xaxis_title (go.layout (loop_body trials p i showscale fig))
  = <[ (1, i + 1) := p ]> (go.xaxis_title (go.layout fig)).
Proof. unfold loop_body. destruct (decide (i = 0)); reflexivity. Qed.

Lemma loop_body_yaxis p i showscale fig :
  go.yaxis_title (go.layout (loop_body trials p i showscale fig))
  = if decide (i = 0)
    then <[ (1, 1) := "Objective Value" ]> (go.yaxis_title (go.layout fig))
    else go.yaxis_title (go.layout fig).
Proof. unfold loop_body. destruct (decide (i = 0)); reflexivity. Qed.

Lemma slice_loop_data ps : forall i showscale fig,
  go.data (slice_loop trials ps i showscale fig)
  = go.data fig ++ loop_traces trials ps i showscale.
Proof.
  induction ps as [|p ps IH]; intros i showscale fig.
  - simpl. rewrite app_nil_r. reflexivity.
  - rewrite slice_loop_cons, IH, loop_body_data, <- app_assoc. reflexivity.
Qed.

Lemma slice_loop_grid ps : forall i showscale fig,
  go.grid (slice_loop trials ps i showscale fig) = go.grid fig.
Proof.
  induction ps as [|p ps IH]; intros i showscale fig; [reflexivity|].
  rewrite slice_loop_cons, IH. apply loop_body_grid.
Qed.

Lemma slice_loop_title ps : forall i showscale fig,
  go.title (go.layout (slice_loop trials ps i showscale fig))
  = go.title (go.layout fig).
Proof.
  induction ps as [|p ps IH]; intros i showscale fig; [reflexivity|].
  rewrite slice_loop_cons, IH. apply loop_body_title.
Qed.

(** The loop leaves the title of every x-axis outside its columns alone. *)
Lemma slice_loop_xaxis_other ps : forall i showscale fig c,
  (forall k, (k < length ps)%nat -> c <> (1, i + Z.of_nat k + 1)) ->
  go.xaxis_title (go.layout (slice_loop trials ps i showscale fig)) !! c
  = go.xaxis_title (go.layout fig) !! c.
Proof.
  induction ps as [|p ps IH]; intros i showscale fig c Hc; [reflexivity|].
  rewrite slice_loop_cons, IH.
  - rewrite loop_body_xaxis. apply lookup_insert_ne.
    intros <-. apply (Hc 0%nat); [simpl; lia | f_equal; lia].
  - intros k Hk. replace (i + 1 + Z.of_nat k + 1)
      with (i + Z.of_nat (S k) + 1) by lia.
    apply Hc. simpl. lia.
Qed.

(** Column [i + k + 1] gets the [k]-th name as the title of its x-axis. *)
Lemma slice_loop_xaxis ps : forall i showscale fig k p,
  ps !! k = Some p ->
  go.xaxis_title (go.layout (slice_loop trials ps i showscale fig))
    !! (1, i + Z.of_nat k + 1) = Some p.
Proof.
  induction ps as [|q ps IH]; intros i showscale fig k p Hk;
    [discriminate|].
  rewrite slice_loop_cons. destruct k as [|k]; simpl in Hk.
  - injection Hk as ->. rewrite slice_loop_xaxis_other.
    + rewrite loop_body_xaxis. replace (i + Z.of_nat 0 + 1) with (i + 1) by lia.
      apply lookup_insert_eq.
    + intros k _ Heq. injection Heq as Heq. lia.
  - replace (i + Z.of_nat (S k) + 1) with (i + 1 + Z.of_nat k + 1) by lia.
    apply IH. exact Hk.
Qed.

(** Past the first column the loop titles no y-axis. *)
Lemma slice_loop_yaxis_later ps : forall i showscale fig,
  0 < i ->
  go.yaxis_title (go.layout (slice_loop trials ps i showscale fig))
  = go.yaxis_title (go.layout fig).
Proof.
  induction ps as [|p ps IH]; intros i showscale fig Hi; [reflexivity|].
  rewrite slice_loop_cons, IH by lia. rewrite loop_body_yaxis.
  apply decide_False. lia.
Qed.

(** From the first column on it titles the y-axis of cell (1, 1) only. *)
Lemma slice_loop_yaxis p ps showscale fig :
  go.yaxis_title (go.layout (slice_loop trials (p :: ps) 0 showscale fig))
  = <[ (1, 1) := "Objective Value" ]> (go.yaxis_title (go.layout fig)).
Proof.
  rewrite slice_loop_cons, slice_loop_yaxis_later by lia.
  rewrite loop_body_yaxis. reflexivity.
Qed.

Lemma loop_traces_lookup ps : forall i showscale k p,
  ps !! k = Some p ->
  loop_traces trials ps i showscale !! k
  = Some (go.update_showscale (_generate_slice_subplot trials p)
            (if decide (k = 0%nat) then showscale else false),
          Some (1, i + Z.of_nat k + 1)).
Proof.
  induction ps as [|q ps IH]; intros i showscale k p Hk; [discriminate|].
  destruct k as [|k]; simpl in Hk.
  - injection Hk as ->. replace (i + Z.of_nat 0 + 1) with (i + 1) by lia.
    reflexivity.
  - change (loop_traces trials ps (i + 1) false !! k = 
            Some (go.update_showscale (_generate_slice_subplot trials p) false,
                  Some (1, i + Z.of_nat (S k) + 1))).
    rewrite (IH (i + 1) false k p Hk).
    replace (i + 1 + Z.of_nat k + 1) with (i + Z.of_nat (S k) + 1) by lia.
    destruct (decide (k = 0%nat)); reflexivity.
Qed.

Lemma loop_traces_length ps : forall i showscale,
  length (loop_traces trials ps i showscale) = length ps.
Proof. induction ps; intros; simpl; auto. Qed.

End SliceLoop.

(** The figure of a slice build that shows two or more parameters. *)
Lemma slice_figure_multi make_subplots trials p1 p2 ps :
  let sorted_params := p1 :: p2 :: ps in
  make_subplots 1 (Z.of_nat (length sorted_params)) true
  = inr (go.subplot_grid 1 (Z.of_nat (length sorted_params)) true) ->
  slice_figure make_subplots slice_layout trials sorted_params
  = ret (slice_loop trials sorted_params 0 true
           (go.update_layout
              (go.subplot_grid 1 (Z.of_nat (length sorted_params)) true)
              slice_layout)).
Proof.
  intros sorted_params Hgrid. unfold slice_figure.
  change (match sorted_params with [param0] => _ | _ => ?k end) with k.
  rewrite Hgrid. reflexivity.
Qed.

(** C8: a slice build that shows two or more parameters returns a figure on
    a grid of one row with a column per parameter and a shared y-axis; the
    [k]-th column holds the series of the [k]-th parameter, whose
    [showscale] flag is on for the first column and off for the others, and
    its x-axis is titled with the parameter's name; the only y-axis with a
    title is the one of the first column, "Objective Value". *)
Theorem slice_multi_panel
    (make_subplots : Z -> Z -> bool -> exception + go.Figure)
    (study : Study) (requested sorted_params : list string) :
  (forall c, 0 < c -> make_subplots 1 c true = inr (go.subplot_grid 1 c true)) ->
  complete_trials study <> [] ->
  select_params (all_params_of (complete_trials study)) requested
  = inr sorted_params ->
  (2 <= length sorted_params)%nat ->
  exists fig,
    _get_slice_plot make_subplots study requested = ret fig
    /\ go.grid fig = Some (go.mkGrid 1 (Z.of_nat (length sorted_params)) true)
    /\ go.title (go.layout fig) = Some "Slice Plot"
    /\ length (go.data fig) = length sorted_params
    /\ (forall k p, sorted_params !! k = Some p ->
          exists trace,
            go.data fig !! k = Some (trace, Some (1, Z.of_nat k + 1))
            /\ trace = go.update_showscale
                         (_generate_slice_subplot (complete_trials study) p)
                         (bool_decide (k = 0%nat))
            /\ go.showscale (go.marker trace) = Some (bool_decide (k = 0%nat))
            /\ go.xaxis_title (go.layout fig) !! (1, Z.of_nat k + 1) = Some p)
    /\ go.yaxis_title (go.layout fig) = {[ (1, 1) := "Objective Value" ]}.
Proof.
  intros Hgrid Hne Hsel Hlen.
  destruct sorted_params as [|p1 [|p2 ps]]; simpl in Hlen; try lia.
  eexists. split.
  { rewrite slice_plot_complete by exact Hne. rewrite Hsel.
    apply slice_figure_multi. apply Hgrid. simpl. lia. }
  split; [rewrite slice_loop_grid; reflexivity|].
  split; [rewrite slice_loop_title; reflexivity|].
  split; [rewrite slice_loop_data; simpl; rewrite loop_traces_length;
          reflexivity|].
  split.
  - intros k p Hk. eexists. split; [|split; [reflexivity|split]].
    + rewrite slice_loop_data. simpl go.data. rewrite app_nil_l.
      rewrite (loop_traces_lookup _ _ 0 true k p Hk).
      replace (0 + Z.of_nat k + 1) with (Z.of_nat k + 1) by lia.
      destruct k; reflexivity.
    + reflexivity.
    + pose proof (slice_loop_xaxis (complete_trials study) _ 0 true
                    (go.update_layout
                       (go.subplot_grid 1
                          (Z.of_nat (length (p1 :: p2 :: ps))) true)
                       slice_layout) k p Hk) as Hx.
      replace (0 + Z.of_nat k + 1) with (Z.of_nat k + 1) in Hx by lia.
      exact Hx.
  - rewrite slice_loop_yaxis. reflexivity.
Qed.

Lemma slice_multi_panel_witness :
  exists fig,
    _get_slice_plot plotly_make_subplots SliceExamples.xy_study [] = ret fig
    /\ go.grid fig = Some (go.mkGrid 1 2 true)
    /\ length (go.data fig) = 2%nat
    /\ go.yaxis_title (go.layout fig) = {[ (1, 1) := "Objective Value" ]}.
Proof.
  destruct (slice_multi_panel plotly_make_subplots SliceExamples.xy_study
              [] ["x"; "y"]) as (fig & Hrun & Hg & _ & Hlen & _ & Hy).
  - intros c Hc. unfold plotly_make_subplots.
    rewrite decide_False by lia. rewrite decide_False by lia. reflexivity.
  - discriminate.
  - vm_compute. reflexivity.
  - simpl. lia.
  - exists fig. repeat split; assumption.
Defined.

(** The figure of a slice build that shows one parameter: one series, the
    x-axis titled with the parameter's name, the y-axis "Objective Value". *)
Lemma slice_single_panel make_subplots study requested p :
  complete_trials study <> [] ->
  select_params (all_params_of (complete_trials study)) requested = inr [p] ->
  exists fig,
    _get_slice_plot make_subplots study requested = ret fig
    /\ go.data fig = [(_generate_slice_subplot (complete_trials study) p, None)]
    /\ go.grid fig = None
    /\ go.xaxis_title (go.layout fig) = {[ (1, 1) := p ]}
    /\ go.yaxis_title (go.layout fig) = {[ (1, 1) := "Objective Value" ]}.
Proof.
  intros Hne Hsel. eexists. split.
  { rewrite slice_plot_complete by exact Hne. rewrite Hsel. reflexivity. }
  repeat split.
Qed.

(** * Further properties of the builders *)

(** ** More on float comparison *)

Module PyFloatOrder.
Import PyFloat.

Lemma compare_antisym a b :
  SFcompare b a = option_map CompOpp (SFcompare a b).
Proof.
  destruct a as [sa|sa| |sa ma ea], b as [sb|sb| |sb mb eb]; simpl;
    try (destruct sa); try (destruct sb); simpl; try reflexivity.
  all: change (Pos.compare_cont Eq) with Pos.compare.
  all: rewrite (Z.compare_antisym ea eb), (Pos.compare_antisym ma mb).
  all: destruct (ea ?= eb)%Z; simpl; try reflexivity.
  all: destruct (ma ?= mb)%positive; reflexivity.
Qed.

Lemma compare_not_nan a b :
  is_nan a = false -> is_nan b = false -> exists c, SFcompare a b = Some c.
Proof. destruct a, b; simpl; try congruence; eauto. Qed.

(** Two floats that are not NaN are comparable. *)
Lemma not_lt_le a b :
  is_nan a = false -> is_nan b = false -> lt b a = false -> le a b = true.
Proof.
  intros Ha Hb. unfold lt, le, SFltb, SFleb. rewrite (compare_antisym a b).
  destruct (compare_not_nan a b Ha Hb) as [c ->].
  destruct c; simpl; congruence.
Qed.

Lemma opp_involutive a : SFopp (SFopp a) = a.
Proof. destruct a as [[]|[]| |[] m e]; reflexivity. Qed.

Lemma compare_opp a b : SFcompare (SFopp b) (SFopp a) = SFcompare a b.
Proof.
  destruct a as [sa|sa| |sa ma ea], b as [sb|sb| |sb mb eb]; simpl;
    try (destruct sa); try (destruct sb); simpl; try reflexivity.
  all: change (Pos.compare_cont Eq) with Pos.compare.
  all: rewrite (Z.compare_antisym ea eb), (Pos.compare_antisym ma mb).
  all: destruct (ea ?= eb)%Z; simpl; try reflexivity.
  all: destruct (ma ?= mb)%positive; reflexivity.
Qed.

Lemma lt_opp a b : lt (SFopp b) (SFopp a) = lt a b.
Proof. unfold lt, SFltb. rewrite compare_opp. reflexivity. Qed.

Lemma max_as_min a b : max a b = SFopp (min (SFopp a) (SFopp b)).
Proof.
  unfold max, min. rewrite lt_opp.
  destruct (lt a b); rewrite opp_involutive; reflexivity.
Qed.

Lemma min_nan a : min a nan = a.
Proof. unfold min, lt, SFltb. destruct a; reflexivity. Qed.

Lemma max_nan a : max a nan = a.
Proof. unfold max, lt, SFltb. destruct a; reflexivity. Qed.

Lemma is_nan_eq a : is_nan a = true -> a = nan.
Proof. destruct a; simpl; intros H; try discriminate H; reflexivity. Qed.

End PyFloatOrder.

(** ** More on the best-so-far sequence *)

Section RunningBest.

Variable d : StudyDirection.

Lemma running_best_app vs : forall prev ws,
  running_best d prev (vs ++ ws)
  = running_best d prev vs
    ++ running_best d (default prev (last (running_best d prev vs))) ws.
Proof.
  induction vs as [|v vs IH]; intros prev ws; [reflexivity|].
  simpl running_best. rewrite <- app_comm_cons, IH. f_equal. f_equal. f_equal.
  rewrite last_cons. destruct (last _); reflexivity.
Qed.

(** The recurrence, entry by entry: [best[i]] is the better of the entry
    before it (the seed for the first) and [values[i]]. *)
Lemma running_best_lookup vs : forall prev i v,
  vs !! i = Some v ->
  exists p, (prev :: running_best d prev vs) !! i = Some p
            /\ running_best d prev vs !! i = Some (better d p v).
Proof.
  induction vs as [|v0 vs IH]; intros prev i v Hi; [discriminate|].
  destruct i as [|i]; simpl in Hi.
  - injection Hi as ->. exists prev. split; reflexivity.
  - destruct (IH (better d prev v0) i v Hi) as (p & Hp & Hb).
    exists p. split; [exact Hp | exact Hb].
Qed.

(** Every entry is the seed or one of the values seen so far. *)
Lemma running_best_elem vs : forall prev i b,
  running_best d prev vs !! i = Some b ->
  b = prev \/ b ∈ take (S i) vs.
Proof.
  induction vs as [|v0 vs IH]; intros prev i b Hi; [discriminate|].
  assert (Hstep : better d prev v0 = prev \/ better d prev v0 = v0).
  { destruct d; simpl; unfold PyFloat.min, PyFloat.max;
      match goal with |- context [if ?c then _ else _] => destruct c end; auto. }
  destruct i as [|i]; simpl in Hi.
  - injection Hi as <-. destruct Hstep as [-> | ->]; [left; reflexivity|].
    right. simpl. apply list_elem_of_here.
  - destruct (IH _ i b Hi) as [-> | Hin].
    + destruct Hstep as [-> | ->]; [left; reflexivity|].
      right. apply list_elem_of_here.
    + right. change (take (S (S i)) (v0 :: vs)) with (v0 :: take (S i) vs).
      apply list_elem_of_further. exact Hin.
Qed.

End RunningBest.

Lemma running_best_min_bound vs : forall prev i j b v,
  PyFloat.is_nan prev = false ->
  running_best MINIMIZE prev vs !! i = Some b ->
  vs !! j = Some v -> (j <= i)%nat ->
  PyFloat.is_nan v = false ->
  PyFloat.le b v = true.
Proof.
  induction vs as [|v0 vs IH]; intros prev i j b v Hprev Hi Hj Hle Hv;
    [discriminate|].
  assert (Hb0 : PyFloat.is_nan (PyFloat.min prev v0) = false)
    by (apply PyFloatFacts.min_not_nan; exact Hprev).
  assert (Hfirst : PyFloat.is_nan v0 = false ->
                   PyFloat.le (PyFloat.min prev v0) v0 = true).
  { intros Hv0. unfold PyFloat.min. destruct (PyFloat.lt v0 prev) eqn:E.
    - apply PyFloatFacts.le_refl. exact Hv0.
    - apply PyFloatOrder.not_lt_le; assumption. }
  destruct i as [|i]; simpl in Hi.
  - injection Hi as <-. assert (j = 0%nat) as -> by lia.
    injection Hj as <-. apply Hfirst. exact Hv.
  - destruct j as [|j]; simpl in Hj.
    + injection Hj as <-.
      apply (PyFloatFacts.le_trans _ (PyFloat.min prev v0)); [|auto].
      destruct (running_best_min_sorted vs _ Hb0) as [Hall _].
      rewrite Forall_forall in Hall. apply Hall.
      eapply list_elem_of_lookup_2. exact Hi.
    + eapply (IH _ i j); eauto. lia.
Qed.

Lemma running_best_max_bound vs : forall prev i j b v,
  PyFloat.is_nan prev = false ->
  running_best MAXIMIZE prev vs !! i = Some b ->
  vs !! j = Some v -> (j <= i)%nat ->
  PyFloat.is_nan v = false ->
  PyFloat.le v b = true.
Proof.
  induction vs as [|v0 vs IH]; intros prev i j b v Hprev Hi Hj Hle Hv;
    [discriminate|].
  assert (Hb0 : PyFloat.is_nan (PyFloat.max prev v0) = false)
    by (apply PyFloatFacts.max_not_nan; exact Hprev).
  assert (Hfirst : PyFloat.is_nan v0 = false ->
                   PyFloat.le v0 (PyFloat.max prev v0) = true).
  { intros Hv0. unfold PyFloat.max. destruct (PyFloat.lt prev v0) eqn:E.
    - apply PyFloatFacts.le_refl. exact Hv0.
    - apply PyFloatOrder.not_lt_le; assumption. }
  destruct i as [|i]; simpl in Hi.
  - injection Hi as <-. assert (j = 0%nat) as -> by lia.
    injection Hj as <-. apply Hfirst. exact Hv.
  - destruct j as [|j]; simpl in Hj.
    + injection Hj as <-.
      apply (PyFloatFacts.le_trans _ (PyFloat.max prev v0)); [auto|].
      destruct (running_best_max_sorted vs _ Hb0) as [Hall _].
      rewrite Forall_forall in Hall. apply Hall.
      eapply list_elem_of_lookup_2. exact Hi.
    + eapply (IH _ i j); eauto. lia.
Qed.

(** ** The optimization history, entry by entry *)

Lemma seed_not_nan d : PyFloat.is_nan (seed d) = false.
Proof. destruct d; reflexivity. Qed.

(** With float values throughout, every entry of the best-so-far sequence
    is the seed or one of the values up to its position, and bounds every
    value up to its position that is not NaN: from below under MINIMIZE,
    from above under MAXIMIZE. *)
Theorem history_best_bounds (study : Study) (vs : list float) :
  map value (complete_trials study) = map Some vs ->
  exists best,
    history_best_values (direction study) (complete_trials study) = ret best
    /\ (forall i b, best !! i = Some b ->
          b = seed (direction study) \/ b ∈ take (S i) vs)
    /\ (forall i j b v,
          best !! i = Some b -> vs !! j = Some v -> (j <= i)%nat ->
          PyFloat.is_nan v = false ->
          match direction study with
          | MINIMIZE => PyFloat.le b v = true
          | MAXIMIZE => PyFloat.le v b = true
          end).
Proof.
  intros Hvs. eexists. split; [|split].
  - apply history_best_values_floats. exact Hvs.
  - intros i b Hi. eapply running_best_elem. exact Hi.
  - intros i j b v Hi Hj Hle Hv. unfold best_so_far in Hi. revert Hi.
    destruct (direction study); intros Hi.
    + eapply (running_best_min_bound vs (seed MINIMIZE)); eauto.
    + eapply (running_best_max_bound vs (seed MAXIMIZE)); eauto.
Qed.

Lemma history_best_bounds_witness :
  exists best,
    history_best_values MINIMIZE (complete_trials (Examples.study_5381 MINIMIZE))
    = ret best
    /\ (forall i b, best !! i = Some b ->
          b = PyFloat.inf
          \/ b ∈ take (S i) [Examples.f5; Examples.f3; Examples.f8; Examples.f1]).
Proof.
  destruct (history_best_bounds (Examples.study_5381 MINIMIZE)
              [Examples.f5; Examples.f3; Examples.f8; Examples.f1])
    as (best & Hbest & Helem & _).
  - reflexivity.
  - exists best. split; [exact Hbest | exact Helem].
Defined.

Lemma running_best_all_nan d vs : forall prev,
  Forall (fun v => PyFloat.is_nan v = true) vs ->
  running_best d prev vs = replicate (length vs) prev.
Proof.
  induction vs as [|v vs IH]; intros prev Hall; [reflexivity|].
  apply Forall_cons in Hall as [Hv Hall].
  apply PyFloatOrder.is_nan_eq in Hv as ->. simpl.
  assert (better d prev PyFloat.nan = prev) as ->
    by (destruct d; [apply PyFloatOrder.min_nan | apply PyFloatOrder.max_nan]).
  rewrite IH by exact Hall. reflexivity.
Qed.

(** A NaN value never becomes the best value: at its position the
    best-so-far sequence repeats the entry before it (the seed at position
    0); when every value is NaN the sequence is the seed throughout. *)
Theorem history_nan_skipped (study : Study) (vs : list float) :
  map value (complete_trials study) = map Some vs ->
  exists best,
    history_best_values (direction study) (complete_trials study) = ret best
    /\ (forall i v, vs !! i = Some v -> PyFloat.is_nan v = true ->
          best !! i = (seed (direction study) :: best) !! i)
    /\ (Forall (fun v => PyFloat.is_nan v = true) vs ->
        best = replicate (length vs) (seed (direction study))).
Proof.
  intros Hvs. eexists. split; [|split].
  - apply history_best_values_floats. exact Hvs.
  - intros i v Hi Hnan. unfold best_so_far.
    destruct (running_best_lookup (direction study) vs
                (seed (direction study)) i v Hi) as (p & Hp & Hb).
    rewrite Hp, Hb. apply PyFloatOrder.is_nan_eq in Hnan as ->.
    f_equal. destruct (direction study);
      [apply PyFloatOrder.min_nan | apply PyFloatOrder.max_nan].
  - intros Hall. apply running_best_all_nan. exact Hall.
Qed.

Lemma history_nan_skipped_witness :
  exists best,
    history_best_values MINIMIZE
      (complete_trials (MoreExamples.nan_study MINIMIZE)) = ret best
    /\ best !! 0%nat = Some PyFloat.inf
    /\ best !! 2%nat = best !! 1%nat.
Proof.
  destruct (history_nan_skipped (MoreExamples.nan_study MINIMIZE)
              [PyFloat.nan; Examples.f3; PyFloat.nan])
    as (best & Hbest & Hnan & _).
  - reflexivity.
  - exists best. split; [exact Hbest|]. split.
    + exact (Hnan 0%nat PyFloat.nan eq_refl eq_refl).
    + exact (Hnan 2%nat PyFloat.nan eq_refl eq_refl).
Defined.

Lemma complete_trials_app d ts more :
  complete_trials (mkStudy d (ts ++ more))
  = complete_trials (mkStudy d ts) ++ complete_trials (mkStudy d more).
Proof. unfold complete_trials. simpl. apply filter_app. Qed.

(** Trials added at the end of a study leave the best-so-far entries of the
    trials before them as they were: the sequence of the longer study
    starts with the sequence of the shorter one. *)
Theorem history_prefix_stable (d : StudyDirection) (ts more : list Trial) :
  Forall (fun t => is_Some (value t))
         (complete_trials (mkStudy d (ts ++ more))) ->
  exists best later,
    history_best_values d (complete_trials (mkStudy d ts)) = ret best
    /\ history_best_values d (complete_trials (mkStudy d (ts ++ more)))
       = ret (best ++ later)
    /\ length best = length (complete_trials (mkStudy d ts)).
Proof.
  rewrite complete_trials_app. intros Hnum.
  apply Forall_app in Hnum as [H1 H2].
  apply numeric_values in H1 as [vs Hvs], H2 as [ws Hws].
  exists (best_so_far d vs). eexists. split; [|split].
  - apply history_best_values_floats. exact Hvs.
  - rewrite (history_best_values_floats d _ (vs ++ ws)).
    + unfold best_so_far. rewrite running_best_app. reflexivity.
    + rewrite !map_app. congruence.
  - unfold best_so_far. rewrite running_best_length.
    rewrite <- (length_map Some vs), <- Hvs, length_map. reflexivity.
Qed.

Lemma history_prefix_stable_witness :
  exists best later,
    history_best_values MINIMIZE
      (complete_trials
         (mkStudy MINIMIZE [Examples.complete 0 Examples.f5;
                            Examples.complete 1 Examples.f3])) = ret best
    /\ history_best_values MINIMIZE
         (complete_trials (Examples.study_5381 MINIMIZE)) = ret (best ++ later)
    /\ length best = 2%nat.
Proof.
  refine (history_prefix_stable MINIMIZE
            [Examples.complete 0 Examples.f5; Examples.complete 1 Examples.f3]
            [Examples.complete 2 Examples.f8; Examples.complete 3 Examples.f1]
            _).
  repeat constructor; eexists; reflexivity.
Defined.

Lemma running_best_opp vs : forall prev,
  running_best MAXIMIZE prev vs
  = map SFopp (running_best MINIMIZE (SFopp prev) (map SFopp vs)).
Proof.
  induction vs as [|v vs IH]; intros prev; [reflexivity|].
  simpl. rewrite <- PyFloatOrder.max_as_min. f_equal.
  rewrite IH, PyFloatOrder.max_as_min, PyFloatOrder.opp_involutive.
  reflexivity.
Qed.

(** Maximizing an objective is minimizing its negation: the best-so-far
    sequence under MAXIMIZE is, entry by entry, the negation of the
    sequence under MINIMIZE of the negated values. *)
Theorem history_maximize_negated (ts neg : list Trial) (vs : list float) :
  map value ts = map Some vs ->
  map value neg = map Some (map SFopp vs) ->
  exists best,
    history_best_values MINIMIZE neg = ret best
    /\ history_best_values MAXIMIZE ts = ret (map SFopp best).
Proof.
  intros Hvs Hneg. eexists. split.
  - apply history_best_values_floats. exact Hneg.
  - rewrite (history_best_values_floats MAXIMIZE ts vs Hvs).
    unfold best_so_far. rewrite running_best_opp. reflexivity.
Qed.

Lemma history_maximize_negated_witness :
  exists best,
    history_best_values MINIMIZE
      (complete_trials (MoreExamples.study_5381_negated MINIMIZE)) = ret best
    /\ history_best_values MAXIMIZE
         (complete_trials (Examples.study_5381 MAXIMIZE))
       = ret (map SFopp best).
Proof.
  refine (history_maximize_negated _ _
            [Examples.f5; Examples.f3; Examples.f8; Examples.f1] _ _);
    reflexivity.
Defined.

(** ** What the builders look at *)

Lemma filter_idemp {A} (P : A -> Prop) `{forall x, Decision (P x)} (l : list A) :
  filter P (filter P l) = filter P l.
Proof.
  induction l as [|a l IH]; [reflexivity|].
  rewrite filter_cons. destruct (decide (P a)) as [Ha|Ha].
  - rewrite filter_cons, decide_True by exact Ha. f_equal. exact IH.
  - exact IH.
Qed.

(** Each builder reads only the trials it keeps: COMPLETE ones for the
    optimization history and the slice plot, PRUNED, COMPLETE and RUNNING
    ones for the intermediate values.  Dropping every other trial from the
    study changes neither the warnings, nor the exception, nor the figure. *)
Theorem builders_ignore_other_trials
    (make_subplots : Z -> Z -> bool -> exception + go.Figure)
    (study : Study) (requested : list string) :
  _get_optimization_history_plot study
  = _get_optimization_history_plot
      (mkStudy (direction study) (complete_trials study))
  /\ _get_slice_plot make_subplots study requested
     = _get_slice_plot make_subplots
         (mkStudy (direction study) (complete_trials study)) requested
  /\ _get_intermediate_plot study
     = _get_intermediate_plot
         (mkStudy (direction study) (target_trials study)).
Proof.
  split; [|split].
  - unfold _get_optimization_history_plot, complete_trials. simpl.
    rewrite filter_idemp. reflexivity.
  - unfold _get_slice_plot, complete_trials. simpl.
    rewrite filter_idemp. reflexivity.
  - unfold _get_intermediate_plot, target_trials. simpl.
    rewrite filter_idemp. reflexivity.
Qed.

(** ** When the intermediate-values build raises *)

Lemma exposes_split (ts : list Trial) :
  (exists ds, map intermediate_values ts = map Some ds)
  \/ (exists pre t post ds, ts = pre ++ t :: post
        /\ map intermediate_values pre = map Some ds
        /\ intermediate_values t = None).
Proof.
  induction ts as [|t ts IH].
  - left. exists []. reflexivity.
  - destruct (intermediate_values t) as [d|] eqn:Hd.
    + destruct IH as [[ds Hds] | (pre & t' & post & ds & -> & Hds & Hnone)].
      * left. exists (d :: ds). simpl. congruence.
      * right. exists (t :: pre), t', post, (d :: ds). simpl.
        repeat split; congruence.
    + right. exists [], t, ts, []. auto.
Qed.

Lemma intermediate_loop_missing pre t post : forall ds acc,
  map intermediate_values pre = map Some ds ->
  intermediate_values t = None ->
  intermediate_loop (pre ++ t :: post) acc
  = raise (AttributeError "intermediate_values").
Proof.
  induction pre as [|p pre IH]; intros ds acc Hds Hnone.
  - simpl. unfold getattr_intermediate_values. rewrite Hnone. reflexivity.
  - destruct ds as [|d ds]; [discriminate|]. injection Hds as Hd Hrest.
    simpl. unfold getattr_intermediate_values. rewrite Hd, bind_ret_l.
    eapply IH; eauto.
Qed.

(** The intermediate-values build raises exactly when the first kept trial
    has [intermediate_values] and a later kept trial has not; the exception
    is then an [AttributeError] and no warning has been logged.  In every
    other case it returns a figure. *)
Theorem intermediate_plot_raises_iff (study : Study) :
  ((exists w e, _get_intermediate_plot study = (w, inl e))
   <-> exists t0 rest,
         target_trials study = t0 :: rest
         /\ is_Some (intermediate_values t0)
         /\ Exists (fun t => intermediate_values t = None) rest)
  /\ (forall w e, _get_intermediate_plot study = (w, inl e) ->
        w = [] /\ exists msg, e = AttributeError msg).
Proof.
  unfold _get_intermediate_plot. fold (target_trials study).
  destruct (target_trials study) as [|t0 rest] eqn:Ht.
  { split; [split|].
    - intros (w & e & H). discriminate H.
    - intros (t & r & H & _). discriminate H.
    - intros w e H. discriminate H. }
  unfold hasattr_intermediate_values.
  destruct (intermediate_values t0) as [d0|] eqn:Hd0.
  2:{ split; [split|].
      - intros (w & e & H). discriminate H.
      - intros (t & r & H & [? Hs] & _). injection H as <- <-. congruence.
      - intros w e H. discriminate H. }
  rewrite bool_decide_eq_false_2
    by (rewrite bool_decide_eq_true_2 by eauto; discriminate).
  destruct (exposes_split (t0 :: rest))
    as [[ds Hds] | (pre & t & post & ds & Heq & Hds & Hnone)].
  - rewrite (intermediate_loop_all _ ds [] Hds), bind_ret_l.
    split; [split|].
    + intros (w & e & H). discriminate H.
    + intros (t & r & H & _ & Hex). injection H as <- <-. exfalso.
      destruct ds as [|d ds]; [discriminate|]. injection Hds as _ Hds.
      apply Exists_exists in Hex as (t & Hin & Hnone).
      assert (Hall : Forall (fun t => is_Some (intermediate_values t)) rest).
      { clear -Hds. revert ds Hds.
        induction rest as [|r rest IH]; intros ds Hds; constructor;
          destruct ds as [|d ds]; try discriminate;
          injection Hds as Hd Hrest; eauto. }
      rewrite Forall_forall in Hall. destruct (Hall t Hin) as [? Hs].
      congruence.
    + intros w e H. discriminate H.
  - assert (Hloop : intermediate_loop (t0 :: rest) []
                    = raise (AttributeError "intermediate_values"))
      by (rewrite Heq; eapply intermediate_loop_missing; eauto).
    rewrite Hloop. split; [split|].
    + intros _. exists t0, rest. split; [reflexivity|]. split; [eauto|].
      destruct pre as [|p pre]; simpl in Heq; injection Heq as -> ->.
      * congruence.
      * apply Exists_app. right. constructor. exact Hnone.
    + intros _. eexists _, _. reflexivity.
    + intros w e H. injection H as <- <-. split; [reflexivity | eauto].
Qed.

Lemma intermediate_plot_raises_iff_witness :
  exists w e, _get_intermediate_plot IntermediateExamples.mixed_study_rev
              = (w, inl e).
Proof.
  apply (proj1 (intermediate_plot_raises_iff
                  IntermediateExamples.mixed_study_rev)).
  eexists _, _. split; [reflexivity|]. split; [eexists; reflexivity|].
  constructor. reflexivity.
Defined.

(** ** More on the slice plot *)

Lemma slice_panel_set_witness :
  exists sorted_params,
    select_params (all_params_of SliceExamples.xy_trials) ["y"; "x"; "y"]
    = inr sorted_params
    /\ StronglySorted String.le sorted_params
    /\ NoDup sorted_params
    /\ (forall s, s ∈ sorted_params <->
          if decide (["y"; "x"; "y"] = [])
          then exists t, t ∈ SliceExamples.xy_trials /\ is_Some (params t !! s)
          else s ∈ ["y"; "x"; "y"]).
Proof.
  apply (slice_panel_set SliceExamples.xy_trials ["y"; "x"; "y"]).
  repeat constructor.
Defined.

Lemma slice_single_panel_witness :
  exists fig,
    _get_slice_plot plotly_make_subplots SliceExamples.xy_study ["y"; "y"]
    = ret fig
    /\ go.data fig
       = [(_generate_slice_subplot
             (complete_trials SliceExamples.xy_study) "y", None)]
    /\ go.grid fig = None
    /\ go.xaxis_title (go.layout fig) = {[ (1, 1) := "y" ]}
    /\ go.yaxis_title (go.layout fig) = {[ (1, 1) := "Objective Value" ]}.
Proof.
  apply (slice_single_panel plotly_make_subplots SliceExamples.xy_study
           ["y"; "y"] "y").
  - discriminate.
  - vm_compute. reflexivity.
Defined.

Lemma select_params_selected (all_params : gset string) requested sorted_params :
  select_params all_params requested = inr sorted_params ->
  (forall p, p ∈ sorted_params -> p ∈ all_params)
  /\ (requested <> [] ->
      forall p, p ∈ sorted_params <-> p ∈ requested).
Proof.
  unfold select_params. destruct (decide (length requested = 0%nat)) as [H0|H0].
  - intros [= <-]. split.
    + intros p. apply (sorted_elements all_params).
    + intros Hne. destruct requested; [congruence | discriminate].
  - destruct (list_find _ requested) as [[i q]|] eqn:Hfind; [discriminate|].
    intros [= <-].
    assert (Hmem : forall p,
               p ∈ sorted (elements (list_to_set requested : gset string))
               <-> p ∈ requested).
    { intros p.
      rewrite (proj2 (proj2 (sorted_elements (list_to_set requested))) p).
      apply elem_of_list_to_set. }
    split; [|intros _; exact Hmem].
    intros p Hp. apply Hmem in Hp.
    apply list_find_None in Hfind. rewrite Forall_forall in Hfind.
    specialize (Hfind p Hp). destruct (decide (p ∈ all_params)); tauto.
Qed.

(** No panel of a slice plot is empty: every selected name is a parameter
    of at least one COMPLETE trial, so its series has at least one point,
    and as many x as y as colours. *)
Theorem slice_panels_have_points
    (trials : list Trial) (requested sorted_params : list string) (p : string) :
  select_params (all_params_of trials) requested = inr sorted_params ->
  p ∈ sorted_params ->
  let trace := _generate_slice_subplot trials p in
  (1 <= length (go.x trace))%nat
  /\ length (go.y trace) = length (go.x trace)
  /\ exists colours, go.color (go.marker trace) = Some colours
                     /\ length colours = length (go.x trace).
Proof.
  intros Hsel Hp trace.
  pose proof (slice_x_of_kept trials p) as Hx.
  apply Forall2_length in Hx.
  assert (Hkept : (1 <= length (filter (has_param p) trials))%nat).
  { apply select_params_selected in Hsel as [Hall _].
    apply Hall, elem_of_all_params in Hp as (t & Ht & Hs).
    assert (Hin : t ∈ filter (has_param p) trials)
      by (apply list_elem_of_filter; split; assumption).
    destruct (filter (has_param p) trials); [inversion Hin | simpl; lia]. }
  subst trace. simpl. rewrite <- Hx. split; [exact Hkept|].
  split; [apply length_map|]. eexists. split; [reflexivity | apply length_map].
Qed.

Lemma slice_panels_have_points_witness :
  (1 <= length (go.x (_generate_slice_subplot SliceExamples.xy_trials "y")))%nat.
Proof.
  refine (proj1 (slice_panels_have_points SliceExamples.xy_trials
                   [] ["x"; "y"] "y" _ _)).
  - vm_compute. reflexivity.
  - apply list_elem_of_In. right. left. reflexivity.
Defined.

(** The slice plot depends on the set of requested names only: two
    non-empty requests of known names with the same members, in any order
    and with any repetitions, give the same result. *)
Theorem slice_request_order_irrelevant
    (make_subplots : Z -> Z -> bool -> exception + go.Figure)
    (study : Study) (requested1 requested2 : list string) :
  requested1 <> [] ->
  Forall (fun q => q ∈ all_params_of (complete_trials study)) requested1 ->
  (forall s, s ∈ requested1 <-> s ∈ requested2) ->
  _get_slice_plot make_subplots study requested1
  = _get_slice_plot make_subplots study requested2.
Proof.
  intros Hne1 Hknown1 Hsame.
  assert (Hne2 : requested2 <> []).
  { destruct requested1 as [|q qs]; [congruence|].
    intros ->. apply (not_elem_of_nil q), Hsame, list_elem_of_here. }
  assert (Hknown2 : Forall (fun q => q ∈ all_params_of (complete_trials study))
                           requested2).
  { rewrite Forall_forall in Hknown1 |- *. intros q Hq.
    apply Hknown1, Hsame, Hq. }
  destruct (complete_trials study) as [|t ts] eqn:Hc.
  - unfold _get_slice_plot. fold (complete_trials study). rewrite Hc.
    reflexivity.
  - rewrite <- Hc in *.
    rewrite !slice_plot_complete by (rewrite Hc; discriminate).
    rewrite (select_params_known _ requested1 Hne1 Hknown1).
    rewrite (select_params_known _ requested2 Hne2 Hknown2).
    assert (Hset : (list_to_set requested1 : gset string)
                   = list_to_set requested2).
    { apply set_eq. intros s. rewrite !elem_of_list_to_set. apply Hsame. }
    rewrite Hset. reflexivity.
Qed.

Lemma slice_request_order_irrelevant_witness :
  _get_slice_plot plotly_make_subplots SliceExamples.xy_study ["y"; "x"; "y"]
  = _get_slice_plot plotly_make_subplots SliceExamples.xy_study ["x"; "y"].
Proof.
  apply slice_request_order_irrelevant.
  - discriminate.
  - repeat constructor.
  - intros s. rewrite !elem_of_cons. tauto.
Defined.

(** Requesting exactly the parameter names of the COMPLETE trials, in any
    order, gives the same result as the default empty request. *)
Theorem slice_all_names_is_default
    (make_subplots : Z -> Z -> bool -> exception + go.Figure)
    (study : Study) (requested : list string) :
  requested <> [] ->
  (list_to_set requested : gset string) = all_params_of (complete_trials study) ->
  _get_slice_plot make_subplots study requested
  = _get_slice_plot make_subplots study [].
Proof.
  intros Hne Hset.
  destruct (complete_trials study) as [|t ts] eqn:Hc.
  - unfold _get_slice_plot. fold (complete_trials study). rewrite Hc.
    reflexivity.
  - rewrite <- Hc in *.
    rewrite !slice_plot_complete by (rewrite Hc; discriminate).
    rewrite (select_params_known _ requested Hne).
    + rewrite Hset. reflexivity.
    + apply Forall_forall. intros q Hq. rewrite <- Hset.
      apply elem_of_list_to_set. exact Hq.
Qed.

Lemma slice_all_names_is_default_witness :
  _get_slice_plot plotly_make_subplots SliceExamples.xy_study ["y"; "x"]
  = _get_slice_plot plotly_make_subplots SliceExamples.xy_study [].
Proof.
  apply slice_all_names_is_default.
  - discriminate.
  - vm_compute. reflexivity.
Defined.

(** The figure for a non-empty list of names: a series per name, in order. *)
Lemma slice_figure_panels make_subplots trials sorted_params :
  (forall c, 0 < c -> make_subplots 1 c true = inr (go.subplot_grid 1 c true)) ->
  sorted_params <> [] ->
  exists fig,
    slice_figure make_subplots slice_layout trials sorted_params = ret fig
    /\ length (go.data fig) = length sorted_params
    /\ (forall k p, sorted_params !! k = Some p ->
          exists trace cell,
            go.data fig !! k = Some (trace, cell)
            /\ go.x trace = go.x (_generate_slice_subplot trials p)
            /\ go.y trace = go.y (_generate_slice_subplot trials p)
            /\ go.color (go.marker trace)
               = go.color (go.marker (_generate_slice_subplot trials p))
            /\ go.xaxis_title (go.layout fig) !! (1, Z.of_nat k + 1) = Some p
            /\ match go.grid fig with
               | None => cell = None /\ length sorted_params = 1%nat
               | Some g => cell = Some (1, Z.of_nat k + 1)
                           /\ go.rows g = 1
                           /\ Z.of_nat k + 1 <= go.cols g
               end).
Proof.
  intros Hgrid Hne. destruct sorted_params as [|p1 [|p2 ps]]; [congruence| |].
  - eexists. split; [reflexivity|]. split; [reflexivity|].
    intros k p Hk. destruct k as [|k]; [|discriminate].
    injection Hk as <-. eexists _, _. split; [reflexivity|].
    repeat split.
  - eexists. split.
    { apply slice_figure_multi. apply Hgrid. simpl. lia. }
    split.
    { rewrite slice_loop_data. simpl go.data. rewrite app_nil_l.
      apply loop_traces_length. }
    intros k p Hk. eexists _, _. split.
    { rewrite slice_loop_data. simpl go.data. rewrite app_nil_l.
      apply (loop_traces_lookup _ _ 0 true k p Hk). }
    split; [reflexivity|]. split; [reflexivity|]. split; [reflexivity|].
    split.
    { pose proof (slice_loop_xaxis trials _ 0 true
                    (go.update_layout
                       (go.subplot_grid 1
                          (Z.of_nat (length (p1 :: p2 :: ps))) true)
                       slice_layout) k p Hk) as Hx.
      replace (0 + Z.of_nat k + 1) with (Z.of_nat k + 1) in Hx by lia.
      exact Hx. }
    rewrite slice_loop_grid. simpl go.grid.
    split; [f_equal; f_equal; lia|]. split; [reflexivity|].
    apply lookup_lt_Some in Hk. cbv beta iota delta [go.cols].
    simpl length in Hk. lia.
Qed.

Lemma select_params_nonempty (all_params : gset string) requested sorted_params :
  select_params all_params requested = inr sorted_params ->
  requested <> [] \/ all_params <> ∅ ->
  sorted_params <> [].
Proof.
  intros Hsel Hsome Hnil. subst sorted_params.
  destruct requested as [|q qs].
  - destruct Hsome as [H|H]; [congruence|]. apply H.
    apply set_eq. intros s. split; [|intros Hs; exfalso; set_solver].
    intros Hs. exfalso.
    apply (proj2 (proj2 (sorted_elements all_params)) s) in Hs.
    unfold select_params in Hsel. simpl in Hsel. injection Hsel as Hsel.
    rewrite Hsel in Hs. inversion Hs.
  - apply select_params_selected in Hsel as [_ Hmem].
    apply (not_elem_of_nil q), Hmem; [discriminate | apply list_elem_of_here].
Qed.

(** With a subplot constructor that returns a grid for every positive
    column count, a slice build that selects at least one name returns a
    figure with exactly one series per selected name, in the order of the
    names: the series of the [k]-th name, with the x-axis of column [k + 1]
    titled by the name.  With a grid, the series sits in row 1, column
    [k + 1], inside the grid; without one there is a single name. *)
Theorem slice_one_panel_per_name
    (make_subplots : Z -> Z -> bool -> exception + go.Figure)
    (study : Study) (requested sorted_params : list string) :
  (forall c, 0 < c -> make_subplots 1 c true = inr (go.subplot_grid 1 c true)) ->
  complete_trials study <> [] ->
  select_params (all_params_of (complete_trials study)) requested
  = inr sorted_params ->
  sorted_params <> [] ->
  exists fig,
    _get_slice_plot make_subplots study requested = ret fig
    /\ length (go.data fig) = length sorted_params
    /\ (forall k p, sorted_params !! k = Some p ->
          exists trace cell,
            go.data fig !! k = Some (trace, cell)
            /\ go.x trace
               = go.x (_generate_slice_subplot (complete_trials study) p)
            /\ go.y trace
               = go.y (_generate_slice_subplot (complete_trials study) p)
            /\ go.color (go.marker trace)
               = go.color (go.marker
                   (_generate_slice_subplot (complete_trials study) p))
            /\ go.xaxis_title (go.layout fig) !! (1, Z.of_nat k + 1) = Some p
            /\ match go.grid fig with
               | None => cell = None /\ length sorted_params = 1%nat
               | Some g => cell = Some (1, Z.of_nat k + 1)
                           /\ go.rows g = 1
                           /\ Z.of_nat k + 1 <= go.cols g
               end).
Proof.
  intros Hgrid Hne Hsel Hsp.
  destruct (slice_figure_panels make_subplots (complete_trials study)
              sorted_params Hgrid Hsp) as (fig & Hfig & Hrest).
  exists fig. split; [|exact Hrest].
  rewrite slice_plot_complete by exact Hne. rewrite Hsel. exact Hfig.
Qed.

Lemma plotly_make_subplots_grid c :
  0 < c -> plotly_make_subplots 1 c true = inr (go.subplot_grid 1 c true).
Proof.
  intros Hc. unfold plotly_make_subplots.
  rewrite decide_False by lia. rewrite decide_False by lia. reflexivity.
Qed.

Lemma slice_one_panel_per_name_witness :
  exists fig,
    _get_slice_plot plotly_make_subplots SliceExamples.xy_study [] = ret fig
    /\ length (go.data fig) = 2%nat.
Proof.
  destruct (slice_one_panel_per_name plotly_make_subplots
              SliceExamples.xy_study [] ["x"; "y"])
    as (fig & Hfig & Hlen & _).
  - exact plotly_make_subplots_grid.
  - discriminate.
  - vm_compute. reflexivity.
  - discriminate.
  - exists fig. split; [exact Hfig | exact Hlen].
Defined.

(** With such a constructor the slice build raises nothing, whatever the
    objective values are, except in the one case of a study that has
    COMPLETE trials none of which has a parameter, plotted with the default
    empty request. *)
Theorem slice_returns_figure
    (make_subplots : Z -> Z -> bool -> exception + go.Figure)
    (study : Study) (requested : list string) :
  (forall c, 0 < c -> make_subplots 1 c true = inr (go.subplot_grid 1 c true)) ->
  complete_trials study = [] \/ requested <> []
  \/ all_params_of (complete_trials study) <> ∅ ->
  exists w fig, _get_slice_plot make_subplots study requested = (w, inr fig).
Proof.
  intros Hgrid Hcase.
  destruct (complete_trials study) as [|t ts] eqn:Hc.
  { unfold _get_slice_plot. fold (complete_trials study). rewrite Hc.
    eexists _, _. reflexivity. }
  rewrite <- Hc in *.
  assert (Hne : complete_trials study <> []) by (rewrite Hc; discriminate).
  rewrite slice_plot_complete by exact Hne.
  destruct (select_params _ requested) as [q|sorted_params] eqn:Hsel.
  { eexists _, _. reflexivity. }
  assert (Hsp : sorted_params <> []).
  { eapply select_params_nonempty; [exact Hsel|].
    destruct Hcase as [H|[H|H]]; [congruence | left; exact H | right; exact H]. }
  destruct (slice_figure_panels make_subplots (complete_trials study)
              sorted_params Hgrid Hsp) as (fig & Hfig & _).
  rewrite Hfig. eexists _, _. reflexivity.
Qed.

Lemma slice_returns_figure_witness :
  exists w fig,
    _get_slice_plot plotly_make_subplots MoreExamples.busy_study ["x"; "z"]
    = (w, inr fig).
Proof.
  apply slice_returns_figure.
  - exact plotly_make_subplots_grid.
  - right. left. discriminate.
Defined.

(** The slice plot does not check objective values: a COMPLETE trial
    without a value that has the parameter is plotted with [None] as its
    y-coordinate, at the position of its number among the colours. *)
Theorem slice_plots_missing_value
    (trials : list Trial) (param : string) (t : Trial) :
  t ∈ trials ->
  is_Some (params t !! param) ->
  value t = None ->
  exists k,
    go.y (_generate_slice_subplot trials param) !! k = Some VNone
    /\ exists colours,
         go.color (go.marker (_generate_slice_subplot trials param))
         = Some colours
         /\ colours !! k = Some (number t).
Proof.
  intros Hin Hp Hnone.
  assert (Hkept : t ∈ filter (has_param param) trials)
    by (apply list_elem_of_filter; split; assumption).
  apply list_elem_of_lookup in Hkept as [k Hk].
  exists k. simpl. split.
  - rewrite list_lookup_fmap, Hk. simpl. unfold value_coord.
    rewrite Hnone. reflexivity.
  - eexists. split; [reflexivity|].
    rewrite list_lookup_fmap, Hk. reflexivity.
Qed.

Lemma slice_plots_missing_value_witness :
  exists k,
    go.y (_generate_slice_subplot MoreExamples.valueless_trials "x") !! k
    = Some VNone
    /\ exists colours,
         go.color (go.marker
                     (_generate_slice_subplot MoreExamples.valueless_trials "x"))
         = Some colours
         /\ colours !! k = Some 1.
Proof.
  apply (slice_plots_missing_value MoreExamples.valueless_trials "x"
           (mkTrial 1 COMPLETE None {[ "x" := VInt 2 ]} (Some []))).
  - apply list_elem_of_In. right. left. reflexivity.
  - eexists. reflexivity.
  - reflexivity.
Defined.

(** ** The entry points *)

Section EntryPointFacts.

Variable version_lt : string -> string -> exception + bool.
Variable make_subplots : Z -> Z -> bool -> exception + go.Figure.

Lemma build_cases {A} (m : M A) :
  (exists w a, m = (w, inr a) /\ build m = (map Warning w, inr a))
  \/ (exists w e, m = (w, inl e)
                  /\ build m = (map Warning w, inl (Propagated e))).
Proof. destruct m as [w [e|a]]; [right | left]; eexists _, _; split; reflexivity. Qed.

(** What an entry point does once the availability check has passed. *)
Lemma run_and_show (inst : Installation) (m : M go.Figure) :
  _check_plotly_availability version_lt inst = ([], inr tt) ->
  pbind (_check_plotly_availability version_lt inst) (fun _ =>
    pbind (build m) (fun figure => show figure))
  = match m with
    | (w, inr figure) => (map Warning w ++ [Show figure], inr tt)
    | (w, inl e) => (map Warning w, inl (Propagated e))
    end.
Proof. intros ->. destruct m as [w [e|fig]]; reflexivity. Qed.

Lemma check_cases (inst : Installation) :
  _check_plotly_availability version_lt inst = ([], inr tt)
  \/ exists e, _check_plotly_availability version_lt inst = ([], inl e).
Proof.
  unfold _check_plotly_availability.
  destruct (negb (_available inst)); [right; eauto|].
  destruct (version_lt _ _) as [e|[]]; [right | right | left]; eauto.
Qed.

End EntryPointFacts.

(** The availability check passes exactly when the import succeeded and
    the installed version is not below 4.0.0.  When the import failed it
    raises an [ImportError] whose message ends with the text of the import
    error between parentheses, whatever the version comparison would say;
    with a version below 4.0.0 it raises an [ImportError] whose message
    gives the installed version after "Your version of Plotly is ".  Such
    messages are equal only for equal import errors, and for equal
    versions. *)
Theorem check_plotly_availability_passes_iff
    (version_lt : string -> string -> exception + bool) (inst : Installation) :
  (_check_plotly_availability version_lt inst = ([], inr tt)
   <-> _available inst = true
       /\ version_lt (plotly_version inst) "4.0.0" = inr false)
  /\ (_available inst = false ->
      _check_plotly_availability version_lt inst
      = ([], inl (ImportError
           ("Plotly is not available. Please install plotly to use this feature. Plotly can be installed by executing `$ pip install plotly`. For further information, please refer to the installation guide of plotly. (The actual import error is as follows: "
            +:+ _import_error inst +:+ ")"))))
  /\ (_available inst = true ->
      version_lt (plotly_version inst) "4.0.0" = inr true ->
      _check_plotly_availability version_lt inst
      = ([], inl (ImportError
           ("Your version of Plotly is " +:+ plotly_version inst
            +:+ " . Please install plotly version 4.0.0 or higher. Plotly can be installed by executing `$ pip install -U plotly>=4.0.0`. For further information, please refer to the installation guide of plotly. "))))
  /\ (forall other : Installation,
        _available inst = false -> _available other = false ->
        _check_plotly_availability version_lt inst
        = _check_plotly_availability version_lt other ->
        _import_error inst = _import_error other)
  /\ (forall other : Installation,
        _available inst = true -> _available other = true ->
        version_lt (plotly_version inst) "4.0.0" = inr true ->
        version_lt (plotly_version other) "4.0.0" = inr true ->
        _check_plotly_availability version_lt inst
        = _check_plotly_availability version_lt other ->
        plotly_version inst = plotly_version other).
Proof.
  unfold _check_plotly_availability. split; [|split; [|split; [|split]]].
  - destruct (_available inst); simpl.
    + destruct (version_lt _ _) as [e|[]]; split;
        intros H; try discriminate H; try (destruct H; discriminate); auto.
    + split; intros H; [discriminate H | destruct H; discriminate].
  - intros ->. reflexivity.
  - intros -> ->. reflexivity.
  - intros other -> ->. simpl. intros [= H]. unfold not_available_message in H.
    repeat match type of H with
           | ?p +:+ _ = ?p +:+ _ => apply (inj (String.app p)) in H
           end.
    apply string_app_inj_r in H. exact H.
  - intros other -> -> -> ->. simpl. intros [= H].
    unfold old_version_message in H.
    repeat match type of H with
           | ?p +:+ _ = ?p +:+ _ => apply (inj (String.app p)) in H
           end.
    apply string_app_inj_r in H. exact H.
Qed.

Lemma check_plotly_availability_passes_iff_witness :
  _check_plotly_availability EntryExamples.version_lt EntryExamples.missing
  = ([], inl (ImportError
       "Plotly is not available. Please install plotly to use this feature. Plotly can be installed by executing `$ pip install plotly`. For further information, please refer to the installation guide of plotly. (The actual import error is as follows: No module named 'plotly')")).
Proof.
  apply (proj1 (proj2 (check_plotly_availability_passes_iff
                         EntryExamples.version_lt EntryExamples.missing))).
  reflexivity.
Defined.

(** When the availability check fails, the three entry points raise what it
    raised and do nothing else: no builder runs, so no warning is logged,
    no [ValueError] or [AttributeError] of a builder is seen, and no figure
    is shown, whatever the study. *)
Theorem plot_stops_at_failed_check
    (version_lt : string -> string -> exception + bool)
    (make_subplots : Z -> Z -> bool -> exception + go.Figure)
    (inst : Installation) (study : Study) (requested : list string)
    (e : raised) :
  _check_plotly_availability version_lt inst = ([], inl e) ->
  plot_intermediate_values version_lt inst study = ([], inl e)
  /\ plot_optimization_history version_lt inst study = ([], inl e)
  /\ plot_slice version_lt make_subplots inst study requested = ([], inl e).
Proof.
  intros Hcheck.
  unfold plot_intermediate_values, plot_optimization_history, plot_slice.
  rewrite Hcheck. repeat split.
Qed.

Lemma plot_stops_at_failed_check_witness :
  plot_optimization_history EntryExamples.version_lt EntryExamples.missing
    HistoryExamples.broken_study
  = ([], inl (ImportError (not_available_message EntryExamples.missing))).
Proof.
  refine (proj1 (proj2 (plot_stops_at_failed_check EntryExamples.version_lt
            plotly_make_subplots EntryExamples.missing
            HistoryExamples.broken_study [] _ _))).
  reflexivity.
Defined.

(** Every call of an entry point logs warnings and then either raises,
    having shown nothing, or shows exactly one figure as its last effect
    and returns; with the check passed, the warnings are the builder's and
    the figure is the builder's figure. *)
Theorem plot_shows_once
    (version_lt : string -> string -> exception + bool)
    (make_subplots : Z -> Z -> bool -> exception + go.Figure)
    (inst : Installation) (study : Study) (requested : list string) :
  shows_once_at_the_end (plot_intermediate_values version_lt inst study)
  /\ shows_once_at_the_end (plot_optimization_history version_lt inst study)
  /\ shows_once_at_the_end
       (plot_slice version_lt make_subplots inst study requested)
  /\ (_check_plotly_availability version_lt inst = ([], inr tt) ->
      forall w figure,
        (_get_intermediate_plot study = (w, inr figure) ->
         plot_intermediate_values version_lt inst study
         = (map Warning w ++ [Show figure], inr tt))
        /\ (_get_optimization_history_plot study = (w, inr figure) ->
            plot_optimization_history version_lt inst study
            = (map Warning w ++ [Show figure], inr tt))
        /\ (_get_slice_plot make_subplots study requested = (w, inr figure) ->
            plot_slice version_lt make_subplots inst study requested
            = (map Warning w ++ [Show figure], inr tt))).
Proof.
  assert (Hshape : forall m : M go.Figure,
            shows_once_at_the_end
              (pbind (_check_plotly_availability version_lt inst) (fun _ =>
                 pbind (build m) (fun figure => show figure)))).
  { intros m. destruct (check_cases version_lt inst) as [Hok | [e Hfail]].
    - rewrite (run_and_show version_lt inst m Hok).
      destruct m as [w [e|fig]]; [right | left]; eexists _, _; reflexivity.
    - rewrite Hfail. right. exists [], e. reflexivity. }
  split; [apply Hshape|]. split; [apply Hshape|]. split; [apply Hshape|].
  intros Hok w figure.
  unfold plot_intermediate_values, plot_optimization_history, plot_slice.
  split; [|split]; intros Hrun;
    rewrite (run_and_show version_lt inst _ Hok), Hrun; reflexivity.
Qed.

Lemma plot_shows_once_witness :
  plot_optimization_history EntryExamples.version_lt EntryExamples.installed
    (mkStudy MINIMIZE [])
  = ([Warning "Study instance does not contain trials.";
      Show (go.new_Figure [] history_layout)], inr tt).
Proof.
  pose proof (plot_shows_once EntryExamples.version_lt plotly_make_subplots
                EntryExamples.installed (mkStudy MINIMIZE []) [])
    as (_ & _ & _ & H).
  exact (proj1 (proj2 (H eq_refl ["Study instance does not contain trials."]
                         (go.new_Figure [] history_layout))) eq_refl).
Defined.

(** ** Labels *)

(** The texts built from a trial's number tell trials apart: two series of
    the intermediate-values plot have the same name only if their trials
    have the same number, and so have two non-float errors of the
    optimization history the same message. *)
Theorem labels_identify_trials (t1 t2 : Trial) (d1 d2 : list (Z * float)) :
  (go.name (intermediate_trace t1 d1) = go.name (intermediate_trace t2 d2) ->
   number t1 = number t2)
  /\ (non_float_message t1 = non_float_message t2 -> number t1 = number t2).
Proof.
  split; [|apply non_float_message_inj].
  unfold intermediate_trace. cbv beta iota delta [go.name]. intros H.
  injection H as H. change (pretty (number t1) = pretty (number t2)) in H.
  apply (inj pretty) in H. exact H.
Qed.

Lemma labels_identify_trials_witness :
  number (Examples.complete 7 Examples.f1)
  = number (Examples.complete 7 Examples.f3).
Proof.
  apply (proj1 (labels_identify_trials
                  (Examples.complete 7 Examples.f1)
                  (Examples.complete 7 Examples.f3) [] [(0, Examples.f5)])).
  reflexivity.
Defined.
